(** * Request admission layer of the image-builder API

    A shallow embedding of
    [vendor/github.com/getkin/kin-openapi/openapi3/validation_options.go]
    (package [openapi3]: the validation bundle and its propagation through
    a [context.Context]) and of the server file of package [v1] that follows
    it (identity resolution, body binding, the error handler and the distro
    access gate), with the properties of both.

    Conventions: Go [int] status codes are [Z]; Go strings are [string];
    [map[string]T] is a [gmap string T]; a Go function that writes to the
    logger, the metrics, the allow-list or the response returns, next to its
    result, the list of effects it performed, in order. *)

From Stdlib Require Import ZArith Bool Ascii String Decimal DecimalString.
From stdpp Require Import base option list strings gmap.

Local Open Scope string_scope.
Local Open Scope list_scope.
Local Open Scope Z_scope.

(* ===================================================================== *)
(** ** Package openapi3: validation options                               *)
(* ===================================================================== *)

Module openapi3.

(** [type ValidationOptions struct {...}] *)
Record ValidationOptions : Type := mkValidationOptions {
  examplesValidationAsReq : bool;
  examplesValidationAsRes : bool;
  examplesValidationDisabled : bool;
  schemaDefaultsValidationDisabled : bool;
  schemaFormatValidationEnabled : bool;
  schemaPatternValidationDisabled : bool
}.

(** [&ValidationOptions{}]: every field at its zero value. *)
Definition zeroOptions : ValidationOptions :=
  mkValidationOptions false false false false false false.

(** [type ValidationOption func(options *ValidationOptions)]: the pointee
    before the call to the pointee after it. *)
Definition ValidationOption : Type := ValidationOptions -> ValidationOptions.

(** Field assignments [options.f = b]. *)
Definition set_examplesValidationDisabled (b : bool) : ValidationOption :=
  fun o => mkValidationOptions (examplesValidationAsReq o) (examplesValidationAsRes o)
             b (schemaDefaultsValidationDisabled o)
             (schemaFormatValidationEnabled o) (schemaPatternValidationDisabled o).

Definition set_schemaDefaultsValidationDisabled (b : bool) : ValidationOption :=
  fun o => mkValidationOptions (examplesValidationAsReq o) (examplesValidationAsRes o)
             (examplesValidationDisabled o) b
             (schemaFormatValidationEnabled o) (schemaPatternValidationDisabled o).

Definition set_schemaFormatValidationEnabled (b : bool) : ValidationOption :=
  fun o => mkValidationOptions (examplesValidationAsReq o) (examplesValidationAsRes o)
             (examplesValidationDisabled o) (schemaDefaultsValidationDisabled o)
             b (schemaPatternValidationDisabled o).

Definition set_schemaPatternValidationDisabled (b : bool) : ValidationOption :=
  fun o => mkValidationOptions (examplesValidationAsReq o) (examplesValidationAsRes o)
             (examplesValidationDisabled o) (schemaDefaultsValidationDisabled o)
             (schemaFormatValidationEnabled o) b.

Definition EnableSchemaFormatValidation : ValidationOption :=
  set_schemaFormatValidationEnabled true.
Definition DisableSchemaFormatValidation : ValidationOption :=
  set_schemaFormatValidationEnabled false.
Definition EnableSchemaPatternValidation : ValidationOption :=
  set_schemaPatternValidationDisabled false.
Definition DisableSchemaPatternValidation : ValidationOption :=
  set_schemaPatternValidationDisabled true.
Definition EnableSchemaDefaultsValidation : ValidationOption :=
  set_schemaDefaultsValidationDisabled false.
Definition DisableSchemaDefaultsValidation : ValidationOption :=
  set_schemaDefaultsValidationDisabled true.
Definition EnableExamplesValidation : ValidationOption :=
  set_examplesValidationDisabled false.
Definition DisableExamplesValidation : ValidationOption :=
  set_examplesValidationDisabled true.

(** *** [context.Context]

    A context is the chain of [context.WithValue] calls above the root.
    [validationOptionsKey{}] is the unexported key of this package; other
    packages use keys of their own, kept apart by a number. A stored value
    is a [*ValidationOptions] or a value of some other dynamic type. *)
Inductive ctxKey : Type :=
| validationOptionsKey
| foreignKey (n : nat).

Inductive ctxValue : Type :=
| ValOptions (options : ValidationOptions)
| ValForeign (n : nat).

Inductive Context : Type :=
| Background
| WithValue (parent : Context) (key : ctxKey) (val : ctxValue).

Definition ctxKey_eqb (a b : ctxKey) : bool :=
  match a, b with
  | validationOptionsKey, validationOptionsKey => true
  | foreignKey n, foreignKey m => Nat.eqb n m
  | _, _ => false
  end.

(** [ctx.Value(key)]: the innermost binding of [key], [None] for Go's nil. *)
Fixpoint Value (ctx : Context) (key : ctxKey) : option ctxValue :=
  match ctx with
  | Background => None
  | WithValue parent k v => if ctxKey_eqb k key then Some v else Value parent key
  end.

(** The [for _, opt := range opts { opt(options) }] loop. *)
Definition applyOptions (opts : list ValidationOption) (options : ValidationOptions)
  : ValidationOptions :=
  fold_left (fun o opt => opt o) opts options.

Definition WithValidationOptions (ctx : Context) (opts : list ValidationOption)
  : Context :=
  match opts with
  | [] => ctx
  | _ => WithValue ctx validationOptionsKey (ValOptions (applyOptions opts zeroOptions))
  end.

Definition getValidationOptions (ctx : Context) : ValidationOptions :=
  match Value ctx validationOptionsKey with
  | Some (ValOptions options) => options
  | _ => zeroOptions
  end.

(** *** The flags the eight constructors write

    Used to state which mutators touch the same flag. *)
Inductive flag : Type := FExamples | FDefaults | FFormat | FPattern.

Definition flag_eqb (a b : flag) : bool :=
  match a, b with
  | FExamples, FExamples | FDefaults, FDefaults
  | FFormat, FFormat | FPattern, FPattern => true
  | _, _ => false
  end.

Definition readFlag (f : flag) (o : ValidationOptions) : bool :=
  match f with
  | FExamples => examplesValidationDisabled o
  | FDefaults => schemaDefaultsValidationDisabled o
  | FFormat => schemaFormatValidationEnabled o
  | FPattern => schemaPatternValidationDisabled o
  end.

Inductive mutator : Type :=
| MEnableSchemaFormatValidation
| MDisableSchemaFormatValidation
| MEnableSchemaPatternValidation
| MDisableSchemaPatternValidation
| MEnableSchemaDefaultsValidation
| MDisableSchemaDefaultsValidation
| MEnableExamplesValidation
| MDisableExamplesValidation.

Definition run (m : mutator) : ValidationOption :=
  match m with
  | MEnableSchemaFormatValidation => EnableSchemaFormatValidation
  | MDisableSchemaFormatValidation => DisableSchemaFormatValidation
  | MEnableSchemaPatternValidation => EnableSchemaPatternValidation
  | MDisableSchemaPatternValidation => DisableSchemaPatternValidation
  | MEnableSchemaDefaultsValidation => EnableSchemaDefaultsValidation
  | MDisableSchemaDefaultsValidation => DisableSchemaDefaultsValidation
  | MEnableExamplesValidation => EnableExamplesValidation
  | MDisableExamplesValidation => DisableExamplesValidation
  end.

(** The flag a constructor's closure assigns, and the value it assigns. *)
Definition touched (m : mutator) : flag :=
  match m with
  | MEnableSchemaFormatValidation | MDisableSchemaFormatValidation => FFormat
  | MEnableSchemaPatternValidation | MDisableSchemaPatternValidation => FPattern
  | MEnableSchemaDefaultsValidation | MDisableSchemaDefaultsValidation => FDefaults
  | MEnableExamplesValidation | MDisableExamplesValidation => FExamples
  end.

Definition written (m : mutator) : bool :=
  match m with
  | MEnableSchemaFormatValidation => true
  | MDisableSchemaFormatValidation => false
  | MEnableSchemaPatternValidation => false
  | MDisableSchemaPatternValidation => true
  | MEnableSchemaDefaultsValidation => false
  | MDisableSchemaDefaultsValidation => true
  | MEnableExamplesValidation => false
  | MDisableExamplesValidation => true
  end.

(** Whether some mutator of the list assigns flag [f]. *)
Definition touches (ms : list mutator) (f : flag) : bool :=
  existsb (fun m => flag_eqb (touched m) f) ms.

(** The value the last mutator of the list that assigns [f] writes to it,
    [None] when no mutator of the list assigns [f]. *)
Definition lastWrite (f : flag) (ms : list mutator) : option bool :=
  fold_left (fun acc m => if flag_eqb (touched m) f then Some (written m) else acc)
            ms None.

(** Two mutator lists assign disjoint sets of flags. *)
Definition disjointFlags (ms1 ms2 : list mutator) : Prop :=
  forall f, touches ms1 f = true -> touches ms2 f = true -> False.

End openapi3.

(* ===================================================================== *)
(** ** Go values shared by the server packages                            *)
(* ===================================================================== *)

(** Values of Go's [error] interface as this file sees them: the sentinel
    [distribution.DistributionNotFound] (compared with [==]), a
    [*echo.HTTPError] (found by type assertion), or any other error, kept
    apart by a number. [echo.HTTPError] carries a status code, a message of
    type [interface{}] (a string or an error here) and an optional wrapped
    error. *)
Inductive error : Type :=
| DistributionNotFound
| OtherError (id : nat)
| HTTPErrorPtr (he : echoHTTPError)
with echoHTTPError : Type :=
| mkEchoHTTPError (code : Z) (msg : message) (internal : option error)
with message : Type :=
| MsgString (s : string)
| MsgError (e : error).

(** A Go [(T, error)] result: the value when the error is nil. *)
Inductive result (A : Type) : Type :=
| Ok (a : A)
| Err (e : error).
Arguments Ok {A} a.
Arguments Err {A} e.

Module http.

Definition StatusBadRequest : Z := 400.
Definition StatusForbidden : Z := 403.
Definition StatusUnsupportedMediaType : Z := 415.
Definition StatusInternalServerError : Z := 500.
Definition StatusNetworkAuthenticationRequired : Z := 511.
Definition MethodHead : string := "HEAD".

(** [http.StatusText] at the one code this file asks for. *)
Definition StatusText_InternalServerError : string := "Internal Server Error".

(** A status code of the client-error class and of the server-error class. *)
Definition isClientError (code : Z) : bool := (400 <=? code) && (code <=? 499).
Definition isServerError (code : Z) : bool := (500 <=? code) && (code <=? 599).

End http.

Module strconv.

(** [strconv.Itoa]: the decimal digits, with a leading minus sign for a
    negative number. *)
Definition Itoa (n : Z) : string := NilZero.string_of_int (Z.to_int n).

End strconv.

Module strings.

(** [strings.HasSuffix(s, suffix)] *)
Definition HasSuffix (s suffix : string) : bool :=
  let n := String.length s in
  let m := String.length suffix in
  if (m <=? n)%nat then String.eqb (String.substring (n - m) m s) suffix else false.

(** [strings.Split(s, sep)] for a one-byte separator, as at its call site in
    this file: the pieces of [s] between the separators, one piece more than
    there are separators. *)
Fixpoint Split (s : string) (sep : ascii) : list string :=
  match s with
  | EmptyString => [EmptyString]
  | String c rest =>
      if Ascii.eqb c sep then EmptyString :: Split rest sep
      else match Split rest sep with
           | [] => [String c EmptyString]
           | piece :: pieces => String c piece :: pieces
           end
  end.

End strings.

Module os.

(** The process environment, and [os.LookupEnv(key)]: the value and whether
    the variable is set. *)
Definition Environ : Type := gmap string string.

Definition LookupEnv (env : Environ) (key : string) : option string := env !! key.

End os.

Module echo.

(** [type HTTPError struct { Code int; Message interface{}; Internal error }] *)
Definition HTTPError : Type := echoHTTPError.

Definition Code (he : HTTPError) : Z :=
  match he with mkEchoHTTPError code _ _ => code end.
Definition Message (he : HTTPError) : message :=
  match he with mkEchoHTTPError _ msg _ => msg end.
Definition Internal (he : HTTPError) : option error :=
  match he with mkEchoHTTPError _ _ internal => internal end.

(** [echo.NewHTTPError(code, message)]: no wrapped error. *)
Definition NewHTTPError (code : Z) (msg : message) : error :=
  HTTPErrorPtr (mkEchoHTTPError code msg None).

(** Levels of echo's logger. *)
Inductive level : Type := DEBUG | INFO | WARN | ERROR.

End echo.

Module identity.

(** The identity header of package [github.com/redhatinsights/identity], at
    the fields the server reads: [Identity.AccountNumber],
    [Identity.Internal.OrgID] and [Entitlements]. *)
Record ServiceDetails : Type := mkServiceDetails {
  IsEntitled : bool;
  IsTrial : bool
}.

Record InternalT : Type := mkInternal { OrgID : string }.

Record IdentityT : Type := mkIdentity {
  AccountNumber : string;
  Internal : InternalT
}.

Record XRHID : Type := mkXRHID {
  Identity : IdentityT;
  Entitlements : gmap string ServiceDetails
}.

End identity.

Module distribution.

(** Modelled from the spec: package [internal/distribution] is not part of
    the sources at hand. A distribution file has a name
    ([d.Distribution.Name]) and a restricted flag ([d.IsRestricted()]); a
    registry answers [Get(name)] with the file, with the sentinel
    [DistributionNotFound] or with another error; [Available(entitled)] is
    the registry scoped to an entitlement tier. The registries themselves
    are left to the caller: the server only calls them. *)
Record DistributionFile : Type := mkDistributionFile {
  Name : string;
  IsRestricted : bool
}.

Record DistroRegistry : Type := mkDistroRegistry {
  Get : string -> result DistributionFile
}.

Record AllDistroRegistry : Type := mkAllDistroRegistry {
  Available : bool -> DistroRegistry
}.

End distribution.

Module common.

(** Modelled from the spec: package [internal/common] is not part of the
    sources at hand. [IsAllowed(orgId, distro)] returns Go's
    [(bool, error)]: the answer, and the error of a failed lookup. *)
Record AllowList : Type := mkAllowList {
  IsAllowed : string -> string -> bool * option error
}.

End common.

Module io.

(** The two sentinels of package [io] the JSON decoder returns at the end of
    the input. *)
Definition EOF : error := OtherError 1.
Definition ErrUnexpectedEOF : error := OtherError 2.

End io.

Module json.

(** Go's [encoding/json], at what [json.NewDecoder(r).Decode(v)] does on its
    first call: the scanner of [scanner.go], a state machine fed one byte at
    a time, and [Decoder.readValue] of [stream.go], which feeds it until the
    first complete value. A [*json.SyntaxError] is one error value here: its
    message and offset reach the server only through [Error()]. *)
Definition SyntaxError : error := OtherError 3.

(** The scanner's step functions, its result codes and the entries of its
    parse stack. *)
Inductive stepFn : Type :=
| stateBeginValue | stateBeginValueOrEmpty | stateBeginStringOrEmpty
| stateBeginString | stateEndValue | stateEndTop
| stateInString | stateInStringEsc | stateInStringEscU | stateInStringEscU1
| stateInStringEscU12 | stateInStringEscU123
| stateNeg | state1 | state0 | stateDot | stateDot0 | stateE | stateESign | stateE0
| stateT | stateTr | stateTru | stateF | stateFa | stateFal | stateFals
| stateN | stateNu | stateNul
| stateError.

Inductive scanCode : Type :=
| scanContinue | scanBeginLiteral | scanBeginObject | scanObjectKey
| scanObjectValue | scanEndObject | scanBeginArray | scanArrayValue
| scanEndArray | scanSkipSpace | scanEnd | scanError.

Inductive parseEntry : Type := parseObjectKey | parseObjectValue | parseArrayValue.

(** [type scanner struct]: the current step function, the parse stack with
    its top first, whether the top-level value has ended, and whether an
    error was recorded. *)
Record scanner : Type := mkScanner {
  step : stepFn;
  parseState : list parseEntry;
  endTop : bool;
  err : bool
}.

Definition maxNestingDepth : N := 10000.

(** [scanner.reset] *)
Definition reset : scanner := mkScanner stateBeginValue [] false false.

Definition withStep (s : scanner) (f : stepFn) : scanner :=
  mkScanner f (parseState s) (endTop s) (err s).

Definition withTop (s : scanner) (p : parseEntry) : scanner :=
  mkScanner (step s) (p :: tl (parseState s)) (endTop s) (err s).

(** [s.error(c, context)] *)
Definition error_ (s : scanner) : scanner * scanCode :=
  (mkScanner stateError (parseState s) (endTop s) true, scanError).

(** [s.pushParseState(c, newParseState, successState)] *)
Definition pushParseState (s : scanner) (p : parseEntry) (success : scanCode)
  : scanner * scanCode :=
  let s' := mkScanner (step s) (p :: parseState s) (endTop s) (err s) in
  if (N.of_nat (length (parseState s')) <=? maxNestingDepth)%N
  then (s', success) else error_ s'.

(** [s.popParseState()] *)
Definition popParseState (s : scanner) : scanner :=
  match tl (parseState s) with
  | [] => mkScanner stateEndTop [] true (err s)
  | rest => mkScanner stateEndValue rest (endTop s) (err s)
  end.

Definition dquote : ascii := ascii_of_nat 34.

Definition isSpace (c : ascii) : bool :=
  Ascii.eqb c " " || Ascii.eqb c (ascii_of_nat 9)
  || Ascii.eqb c (ascii_of_nat 13) || Ascii.eqb c (ascii_of_nat 10).

Definition between (lo hi c : ascii) : bool :=
  (N_of_ascii lo <=? N_of_ascii c)%N && (N_of_ascii c <=? N_of_ascii hi)%N.

Definition isDigit (c : ascii) : bool := between "0" "9" c.

Definition isHex (c : ascii) : bool :=
  between "0" "9" c || between "a" "f" c || between "A" "F" c.

Definition doStateEndTop (s : scanner) (c : ascii) : scanner * scanCode :=
  if negb (isSpace c) then (fst (error_ s), scanEnd) else (s, scanEnd).

Definition doStateEndValue (s : scanner) (c : ascii) : scanner * scanCode :=
  match parseState s with
  | [] => doStateEndTop (mkScanner stateEndTop [] true (err s)) c
  | ps :: _ =>
      if isSpace c then (withStep s stateEndValue, scanSkipSpace)
      else match ps with
           | parseObjectKey =>
               if Ascii.eqb c ":"
               then (withStep (withTop s parseObjectValue) stateBeginValue, scanObjectKey)
               else error_ s
           | parseObjectValue =>
               if Ascii.eqb c ","
               then (withStep (withTop s parseObjectKey) stateBeginString, scanObjectValue)
               else if Ascii.eqb c "}" then (popParseState s, scanEndObject)
               else error_ s
           | parseArrayValue =>
               if Ascii.eqb c "," then (withStep s stateBeginValue, scanArrayValue)
               else if Ascii.eqb c "]" then (popParseState s, scanEndArray)
               else error_ s
           end
  end.

Definition doStateBeginValue (s : scanner) (c : ascii) : scanner * scanCode :=
  if isSpace c then (s, scanSkipSpace)
  else if Ascii.eqb c "{"
  then pushParseState (withStep s stateBeginStringOrEmpty) parseObjectKey scanBeginObject
  else if Ascii.eqb c "["
  then pushParseState (withStep s stateBeginValueOrEmpty) parseArrayValue scanBeginArray
  else if Ascii.eqb c dquote then (withStep s stateInString, scanBeginLiteral)
  else if Ascii.eqb c "-" then (withStep s stateNeg, scanBeginLiteral)
  else if Ascii.eqb c "0" then (withStep s state0, scanBeginLiteral)
  else if Ascii.eqb c "t" then (withStep s stateT, scanBeginLiteral)
  else if Ascii.eqb c "f" then (withStep s stateF, scanBeginLiteral)
  else if Ascii.eqb c "n" then (withStep s stateN, scanBeginLiteral)
  else if between "1" "9" c then (withStep s state1, scanBeginLiteral)
  else error_ s.

Definition doStateBeginValueOrEmpty (s : scanner) (c : ascii) : scanner * scanCode :=
  if isSpace c then (s, scanSkipSpace)
  else if Ascii.eqb c "]" then doStateEndValue s c
  else doStateBeginValue s c.

Definition doStateBeginString (s : scanner) (c : ascii) : scanner * scanCode :=
  if isSpace c then (s, scanSkipSpace)
  else if Ascii.eqb c dquote then (withStep s stateInString, scanBeginLiteral)
  else error_ s.

Definition doStateBeginStringOrEmpty (s : scanner) (c : ascii) : scanner * scanCode :=
  if isSpace c then (s, scanSkipSpace)
  else if Ascii.eqb c "}" then doStateEndValue (withTop s parseObjectValue) c
  else doStateBeginString s c.

Definition doStateInString (s : scanner) (c : ascii) : scanner * scanCode :=
  if Ascii.eqb c dquote then (withStep s stateEndValue, scanContinue)
  else if Ascii.eqb c "\" then (withStep s stateInStringEsc, scanContinue)
  else if (N_of_ascii c <? 32)%N then error_ s
  else (s, scanContinue).

Definition doStateInStringEsc (s : scanner) (c : ascii) : scanner * scanCode :=
  if Ascii.eqb c "b" || Ascii.eqb c "f" || Ascii.eqb c "n" || Ascii.eqb c "r"
     || Ascii.eqb c "t" || Ascii.eqb c "\" || Ascii.eqb c "/" || Ascii.eqb c dquote
  then (withStep s stateInString, scanContinue)
  else if Ascii.eqb c "u" then (withStep s stateInStringEscU, scanContinue)
  else error_ s.

(** The four hexadecimal digits of a [\u] escape, and the letters of the
    literals [true], [false] and [null]: one expected byte, then the next
    step function. *)
Definition expectHex (s : scanner) (c : ascii) (next : stepFn) : scanner * scanCode :=
  if isHex c then (withStep s next, scanContinue) else error_ s.

Definition expectChar (s : scanner) (c want : ascii) (next : stepFn)
  : scanner * scanCode :=
  if Ascii.eqb c want then (withStep s next, scanContinue) else error_ s.

Definition doState0 (s : scanner) (c : ascii) : scanner * scanCode :=
  if Ascii.eqb c "." then (withStep s stateDot, scanContinue)
  else if Ascii.eqb c "e" || Ascii.eqb c "E" then (withStep s stateE, scanContinue)
  else doStateEndValue s c.

Definition doState1 (s : scanner) (c : ascii) : scanner * scanCode :=
  if isDigit c then (withStep s state1, scanContinue) else doState0 s c.

Definition doStateNeg (s : scanner) (c : ascii) : scanner * scanCode :=
  if Ascii.eqb c "0" then (withStep s state0, scanContinue)
  else if between "1" "9" c then (withStep s state1, scanContinue)
  else error_ s.

Definition doStateDot (s : scanner) (c : ascii) : scanner * scanCode :=
  if isDigit c then (withStep s stateDot0, scanContinue) else error_ s.

Definition doStateDot0 (s : scanner) (c : ascii) : scanner * scanCode :=
  if isDigit c then (s, scanContinue)
  else if Ascii.eqb c "e" || Ascii.eqb c "E" then (withStep s stateE, scanContinue)
  else doStateEndValue s c.

Definition doStateESign (s : scanner) (c : ascii) : scanner * scanCode :=
  if isDigit c then (withStep s stateE0, scanContinue) else error_ s.

Definition doStateE (s : scanner) (c : ascii) : scanner * scanCode :=
  if Ascii.eqb c "+" || Ascii.eqb c "-" then (withStep s stateESign, scanContinue)
  else doStateESign s c.

Definition doStateE0 (s : scanner) (c : ascii) : scanner * scanCode :=
  if isDigit c then (s, scanContinue) else doStateEndValue s c.

(** [s.step(s, c)] *)
Definition doStep (s : scanner) (c : ascii) : scanner * scanCode :=
  match step s with
  | stateBeginValue => doStateBeginValue s c
  | stateBeginValueOrEmpty => doStateBeginValueOrEmpty s c
  | stateBeginStringOrEmpty => doStateBeginStringOrEmpty s c
  | stateBeginString => doStateBeginString s c
  | stateEndValue => doStateEndValue s c
  | stateEndTop => doStateEndTop s c
  | stateInString => doStateInString s c
  | stateInStringEsc => doStateInStringEsc s c
  | stateInStringEscU => expectHex s c stateInStringEscU1
  | stateInStringEscU1 => expectHex s c stateInStringEscU12
  | stateInStringEscU12 => expectHex s c stateInStringEscU123
  | stateInStringEscU123 => expectHex s c stateInString
  | stateNeg => doStateNeg s c
  | state1 => doState1 s c
  | state0 => doState0 s c
  | stateDot => doStateDot s c
  | stateDot0 => doStateDot0 s c
  | stateE => doStateE s c
  | stateESign => doStateESign s c
  | stateE0 => doStateE0 s c
  | stateT => expectChar s c "r" stateTr
  | stateTr => expectChar s c "u" stateTru
  | stateTru => expectChar s c "e" stateEndValue
  | stateF => expectChar s c "a" stateFa
  | stateFa => expectChar s c "l" stateFal
  | stateFal => expectChar s c "s" stateFals
  | stateFals => expectChar s c "e" stateEndValue
  | stateN => expectChar s c "u" stateNu
  | stateNu => expectChar s c "l" stateNul
  | stateNul => expectChar s c "l" stateEndValue
  | stateError => (s, scanError)
  end.

Definition isScanEnd (code : scanCode) : bool :=
  match code with scanEnd => true | _ => false end.

(** [nonSpace(b)]: whether the buffer holds a byte that is not a space. *)
Fixpoint nonSpace (b : string) : bool :=
  match b with
  | EmptyString => false
  | String c rest => if isSpace c then nonSpace rest else true
  end.

(** The loop of [Decoder.readValue] over the unread input [buf], with
    [scanp] bytes of [whole] scanned so far: the length of the first value,
    or the error. A byte that ends the value is not part of it (the end is
    reported one byte late), a closing brace or bracket at the top level ends
    it at once, and at the end of the input a value is complete if a space
    would end it. *)
Fixpoint readValueLoop (whole : string) (s : scanner) (buf : string) (scanp : nat)
  : result nat :=
  match buf with
  | EmptyString =>
      if isScanEnd (snd (doStep s " ")) then Ok scanp
      else if nonSpace whole then Err io.ErrUnexpectedEOF
      else Err io.EOF
  | String c rest =>
      let r := doStep s c in
      match snd r with
      | scanEnd => Ok scanp
      | scanEndObject | scanEndArray =>
          let r' := doStateEndValue (fst r) " " in
          if isScanEnd (snd r') then Ok (S scanp)
          else readValueLoop whole (fst r') rest (S scanp)
      | scanError => Err SyntaxError
      | _ => readValueLoop whole (fst r) rest (S scanp)
      end
  end.

Definition readValue (body : string) : result nat :=
  readValueLoop body reset body 0.

(** [json.NewDecoder(body).Decode(v)], first call: read the first value and
    hand its bytes to [d.unmarshal(v)], the part that depends on the type of
    the target; what follows the value stays in the decoder's buffer. *)
Definition Decode {Target : Type}
    (unmarshal : string -> Target -> Target * option error)
    (body : string) (v : Target) : Target * option error :=
  match readValue body with
  | Ok n => unmarshal (String.substring 0 n body) v
  | Err e => (v, Some e)
  end.

(** [json.Valid(data)], that is [checkValid]: every byte is accepted by the
    scanner and the input ends where a top-level value has ended. *)
Fixpoint checkValidLoop (s : scanner) (data : string) : option scanner :=
  match data with
  | EmptyString => Some s
  | String c rest =>
      let r := doStep s c in
      match snd r with
      | scanError => None
      | _ => checkValidLoop (fst r) rest
      end
  end.

Definition eof (s : scanner) : bool :=
  if err s then false
  else if endTop s then true
  else endTop (fst (doStep s " ")).

Definition Valid (data : string) : bool :=
  match checkValidLoop reset data with
  | Some s => eof s
  | None => false
  end.


End json.

(* ===================================================================== *)
(** ** Package v1: the server                                             *)
(* ===================================================================== *)

Module v1.

(** Modelled from the spec: the generated [api.go] is not part of the
    sources at hand. [HTTPError] is [{title, detail}] and [HTTPErrorList]
    wraps a list of them under [errors]. *)
Record HTTPError : Type := mkHTTPError {
  Title : string;
  Detail : string
}.

Record HTTPErrorList : Type := mkHTTPErrorList {
  Errors : list HTTPError
}.

(** *** Effects

    What a handler does besides returning: a line on echo's logger at a
    level, an increment of the [ComposeErrors] counter, a call of the
    allow-list, a read of the request body by the JSON decoder, and the two
    writes of the response, [c.NoContent(code)] and [c.JSON(code, body)]. *)
Inductive event : Type :=
| Logged (lvl : echo.level) (line : string)
| ComposeErrorsInc
| AllowListAsked (orgID distro : string)
| BodyDecoded
| WroteNoContent (code : Z)
| WroteJSON (code : Z) (body : HTTPErrorList).

(** A computation with effects: its value and the effects, oldest first. *)
Definition M (A : Type) : Type := (A * list event)%type.

Definition ret {A : Type} (a : A) : M A := (a, []).

Definition bind {A B : Type} (m : M A) (k : A -> M B) : M B :=
  let r := k (fst m) in (fst r, app (snd m) (snd r)).

Definition emit (e : event) : M unit := (tt, [e]).

Definition value {A : Type} (m : M A) : A := fst m.
Definition effects {A : Type} (m : M A) : list event := snd m.

(** The writes of the response among the effects, and whether the
    allow-list was asked. *)
Definition isWrite (e : event) : bool :=
  match e with
  | WroteNoContent _ | WroteJSON _ _ => true
  | _ => false
  end.

Definition writes (es : list event) : list event := List.filter isWrite es.

Definition isAllowListAsked (e : event) : bool :=
  match e with
  | AllowListAsked _ _ => true
  | _ => false
  end.

Definition asksAllowList (es : list event) : bool := existsb isAllowListAsked es.

Notation "'let*' x := m 'in' k" := (bind m (fun x => k))
  (at level 10, x name, m at level 100, k at level 200).
Notation "'perform' m 'then' k" := (bind m (fun _ => k))
  (at level 10, m at level 100, k at level 200).

(** *** [echo.Context]

    What the handlers read from the request and the response:
    [identity.Get(ctx.Request().Context())] ([None] when its [ok] is false),
    the method, the header map, the body, the route path, whether the
    response is committed, and what a write of the response returns. *)
Record Context : Type := mkContext {
  IdentityOf : option identity.XRHID;
  Method : string;
  Header : gmap string (list string);
  Body : string;
  Path : string;
  Committed : bool;
  WriteResult : option error
}.

(** [type Server struct {...}], at the two fields the functions below read. *)
Record Server : Type := mkServer {
  allowList : common.AllowList;
  allDistros : distribution.AllDistroRegistry
}.

Definition isDistributionNotFound (err : error) : bool :=
  match err with
  | DistributionNotFound => true
  | _ => false
  end.

Section Handlers.

(** The [Error()] method of Go's [error] interface; its implementations are
    in the packages that make the errors. *)
Variable ErrorText : error -> string.

(** The type bound by [Bind], and [json.NewDecoder(body).Decode(i)]: the
    target after the call and the decoder's error. *)
Variable Target : Type.
Variable Decode : string -> Target -> Target * option error.

(** [fmt.Sprintf("%v", m)] for a message that is a string or an error. *)
Definition Sprint (m : message) : string :=
  match m with
  | MsgString s => s
  | MsgError e => ErrorText e
  end.

Definition getIdentityHeader (ctx : Context) : result identity.XRHID :=
  match IdentityOf ctx with
  | None =>
      Err (echo.NewHTTPError http.StatusInternalServerError
             (MsgString "Identity Header missing in request handler"))
  | Some idHeader => Ok idHeader
  end.

(** [request.Header["Content-Type"]]: the values of the header, none when
    the key is absent. *)
Definition contentTypeOf (ctx : Context) : list string :=
  default [] (Header ctx !! "Content-Type").

Definition Bind (i : Target) (ctx : Context) : M (Target * option error) :=
  let contentType := contentTypeOf ctx in
  if negb (Nat.eqb (length contentType) 1)
     || negb (String.eqb (hd "" contentType) "application/json")
  then
    ret (i, Some (echo.NewHTTPError http.StatusUnsupportedMediaType
                    (MsgString "request must be json-encoded")))
  else
    perform emit BodyDecoded then
    let decoded := Decode (Body ctx) i in
    match snd decoded with
    | Some err =>
        ret (fst decoded,
             Some (echo.NewHTTPError http.StatusBadRequest
                     (MsgString ("cannot parse request body: " +:+ ErrorText err))))
    | None => ret (fst decoded, None)
    end.

(** The first part of [HTTPErrorHandler]: the [*echo.HTTPError] answered. *)
Definition resolveHTTPError (err : error) : echo.HTTPError :=
  match err with
  | HTTPErrorPtr he =>
      match echo.Internal he with
      | Some (HTTPErrorPtr herr) => herr
      | _ => he
      end
  | _ => mkEchoHTTPError http.StatusInternalServerError
           (MsgString http.StatusText_InternalServerError) None
  end.

(** [c.Logger().Error(v)] and [c.Logger().Errorf(...)], with the line
    already formatted. *)
Definition logError (line : string) : M unit := emit (Logged echo.ERROR line).

(** [c.NoContent(code)] and [c.JSON(code, body)]: the write, and what it
    returns. *)
Definition NoContent (c : Context) (code : Z) : M (option error) :=
  perform emit (WroteNoContent code) then ret (WriteResult c).

Definition JSON (c : Context) (code : Z) (body : HTTPErrorList) : M (option error) :=
  perform emit (WroteJSON code body) then ret (WriteResult c).

Definition HTTPErrorHandler (s : Server) (err : error) (c : Context) : M unit :=
  let errors : list HTTPError := [] in
  let he := resolveHTTPError err in
  let internalError :=
    (http.StatusInternalServerError <=? echo.Code he)
    && (echo.Code he <=? http.StatusNetworkAuthenticationRequired) in
  perform
    (if internalError then
       perform logError ("Internal error " +:+ strconv.Itoa (echo.Code he) +:+ ": "
                         +:+ Sprint (echo.Message he) +:+ ", " +:+ ErrorText err)
       then
       if strings.HasSuffix (Path c) "/compose" then emit ComposeErrorsInc else ret tt
     else ret tt)
  then
  let errors := app errors
      [mkHTTPError (strconv.Itoa (echo.Code he)) (Sprint (echo.Message he))] in
  if negb (Committed c) then
    let* err' :=
      (if String.eqb (Method c) http.MethodHead
       then NoContent c (echo.Code he)
       else JSON c (echo.Code he) (mkHTTPErrorList errors)) in
    match err' with
    | Some e => logError (ErrorText e)
    | None => ret tt
    end
  else ret tt.

(** [isEntitled]: whether the calling context may consume RHEL content. *)
Definition isEntitled (s : Server) (ctx : Context) : M bool :=
  match getIdentityHeader ctx with
  | Err _ => ret false
  | Ok idh =>
      match identity.Entitlements idh !! "rhel" with
      | None =>
          perform logError "RHEL entitlement not present in identity header" then
          ret (negb (String.eqb (identity.AccountNumber (identity.Identity idh)) ""))
      | Some entitled => ret (identity.IsEntitled entitled)
      end
  end.

Definition distroRegistry (s : Server) (ctx : Context) : M distribution.DistroRegistry :=
  let* entitled := isEntitled s ctx in
  ret (distribution.Available (allDistros s) entitled).

(** The value of [distroRegistry]: the registry scoped to the caller's
    entitlement tier, in which [getDistro] looks the name up. *)
Definition tierRegistry (s : Server) (ctx : Context) : distribution.DistroRegistry :=
  distribution.Available (allDistros s) (value (isEntitled s ctx)).

(** [s.allowList.IsAllowed(orgID, name)], recorded as an effect. *)
Definition askAllowList (s : Server) (orgID name : string) : M (bool * option error) :=
  perform emit (AllowListAsked orgID name) then
  ret (common.IsAllowed (allowList s) orgID name).

(** [getDistro]: wraps [DistroRegistry.Get] and verifies the caller's access. *)
Definition getDistro (s : Server) (ctx : Context) (distro : string)
  : M (result distribution.DistributionFile) :=
  let* registry := distroRegistry s ctx in
  match distribution.Get registry distro with
  | Err err =>
      if isDistributionNotFound err
      then ret (Err (echo.NewHTTPError http.StatusBadRequest (MsgError err)))
      else ret (Err err)
  | Ok d =>
      match getIdentityHeader ctx with
      | Err err => ret (Err err)
      | Ok idHeader =>
          if distribution.IsRestricted d then
            let* answer :=
              askAllowList s
                (identity.OrgID (identity.Internal (identity.Identity idHeader)))
                (distribution.Name d) in
            match snd answer with
            | Some err =>
                ret (Err (echo.NewHTTPError http.StatusInternalServerError
                            (MsgString (ErrorText err))))
            | None =>
                if negb (fst answer) then
                  let message :=
                    "This account's organization is not authorized to build "
                    +:+ distribution.Name d +:+ " images" in
                  ret (Err (echo.NewHTTPError http.StatusForbidden (MsgString message)))
                else ret (Ok d)
            end
          else ret (Ok d)
      end
  end.

End Handlers.

(** [RoutePrefix]: the mount point, from the environment or the defaults. *)
Definition RoutePrefix (env : os.Environ) : string :=
  let pathPrefix :=
    match os.LookupEnv env "PATH_PREFIX" with
    | Some v => v
    | None => "api"
    end in
  let appName :=
    match os.LookupEnv env "APP_NAME" with
    | Some v => v
    | None => "image-builder"
    end in
  "/" +:+ pathPrefix +:+ "/" +:+ appName.

(** The strings [Attach] computes from [spec.Info.Version]: the URL of the
    server it adds to the document, the major version
    [strings.Split(version, ".")[0]] (the split always has a first piece) and
    the prefixes of the two route groups. *)
Definition serverURL (env : os.Environ) (version : string) : string :=
  RoutePrefix env +:+ "/v" +:+ version.

Definition majorVersion (version : string) : string :=
  hd EmptyString (strings.Split version "."%char).

Definition majorGroupPrefix (env : os.Environ) (version : string) : string :=
  RoutePrefix env +:+ "/v" +:+ majorVersion version.

Definition exactGroupPrefix (env : os.Environ) (version : string) : string :=
  RoutePrefix env +:+ "/v" +:+ version.

(** The log lines, the counter increments and the allow-list calls among the
    effects. *)
Definition isLogged (e : event) : bool :=
  match e with
  | Logged _ _ => true
  | _ => false
  end.

Definition logged (es : list event) : list event := List.filter isLogged es.

Definition isComposeErrorsInc (e : event) : bool :=
  match e with
  | ComposeErrorsInc => true
  | _ => false
  end.

Definition composeErrors (es : list event) : nat :=
  length (List.filter isComposeErrorsInc es).

Definition allowListCalls (es : list event) : list event :=
  List.filter isAllowListAsked es.

End v1.

(* ===================================================================== *)
(** ** Collaborators for concrete requests                                *)
(* ===================================================================== *)

Module fixtures.

(** Modelled from the spec: a registry over a catalog of distribution files.
    [Get] answers with the first file of that name and with the sentinel
    for an unknown name; entitled callers see the full catalog,
    non-entitled callers only the unrestricted distributions. *)
Fixpoint lookupName (catalog : list distribution.DistributionFile) (name : string)
  : result distribution.DistributionFile :=
  match catalog with
  | [] => Err DistributionNotFound
  | d :: rest =>
      if String.eqb (distribution.Name d) name then Ok d else lookupName rest name
  end.

Definition registryOf (catalog : list distribution.DistributionFile)
  : distribution.DistroRegistry :=
  distribution.mkDistroRegistry (lookupName catalog).

Definition unrestricted (catalog : list distribution.DistributionFile)
  : list distribution.DistributionFile :=
  List.filter (fun d => negb (distribution.IsRestricted d)) catalog.

Definition allDistrosOf (catalog : list distribution.DistributionFile)
  : distribution.AllDistroRegistry :=
  distribution.mkAllDistroRegistry
    (fun entitled => registryOf (if entitled then catalog else unrestricted catalog)).

(** Modelled from the spec: an allow-list as a mapping from organization id
    to the distribution names it may access; its lookup never fails. *)
Definition allowListOf (table : gmap string (list string)) : common.AllowList :=
  common.mkAllowList
    (fun orgID name =>
       (existsb (String.eqb name) (default [] (table !! orgID)), None)).

(** An allow-list whose lookup fails with the given error. *)
Definition brokenAllowList (err : error) : common.AllowList :=
  common.mkAllowList (fun _ _ => (false, Some err)).

(** A catalog with one open and one restricted distribution. *)
Definition centos8 : distribution.DistributionFile :=
  distribution.mkDistributionFile "centos-8" false.
Definition rhel90beta : distribution.DistributionFile :=
  distribution.mkDistributionFile "rhel-90-beta" true.
Definition catalog : list distribution.DistributionFile := [centos8; rhel90beta].

Definition serverWith (allow : common.AllowList) : v1.Server :=
  v1.mkServer allow (allDistrosOf catalog).

(** Texts for the [Error()] method, and a decoder over bodies that takes a
    body starting with an opening brace for an object and rejects the rest. *)
Definition errorText (e : error) : string :=
  match e with
  | DistributionNotFound => "distribution not found"
  | OtherError _ => "unexpected failure"
  | HTTPErrorPtr _ => "http error"
  end.

Definition decodeBraces (body : string) (i : nat) : nat * option error :=
  match body with
  | String "{"%char _ => (S i, None)
  | _ => (i, Some (OtherError 7))
  end.

(** Identities: one entitled to RHEL, one with no entitlement entry and no
    account number, one with no entry but with an account number. *)
Definition identityOf (account org : string) (ents : gmap string identity.ServiceDetails)
  : identity.XRHID :=
  identity.mkXRHID (identity.mkIdentity account (identity.mkInternal org)) ents.

Definition entitledId : identity.XRHID :=
  identityOf "600000" "org-1" {[ "rhel" := identity.mkServiceDetails true false ]}.
Definition bareId : identity.XRHID := identityOf "" "org-2" ∅.
Definition legacyId : identity.XRHID := identityOf "600001" "org-3" ∅.

(** Requests. *)
Definition request (id : option identity.XRHID) (method : string)
    (contentType : option (list string)) (body : string) : v1.Context :=
  v1.mkContext id method
    (match contentType with
     | Some values => {[ "Content-Type" := values ]}
     | None => ∅
     end)
    body "/api/image-builder/v1/compose" false None.

End fixtures.

(* ===================================================================== *)
(** ** Properties of the validation options                               *)
(* ===================================================================== *)

Section ValidationOptionsProperties.

Import openapi3.

Lemma applyOptions_app (xs ys : list ValidationOption) (o : ValidationOptions) :
  applyOptions (xs ++ ys) o = applyOptions ys (applyOptions xs o).
Proof. unfold applyOptions. apply fold_left_app. Qed.

(** A constructor's closure writes its flag and leaves the others alone. *)
Lemma readFlag_run (m : mutator) (f : flag) (o : ValidationOptions) :
  readFlag f (run m o) = if flag_eqb (touched m) f then written m else readFlag f o.
Proof. destruct m, f; reflexivity. Qed.

Lemma asReq_run (m : mutator) (o : ValidationOptions) :
  examplesValidationAsReq (run m o) = examplesValidationAsReq o.
Proof. destruct m; reflexivity. Qed.

Lemma asRes_run (m : mutator) (o : ValidationOptions) :
  examplesValidationAsRes (run m o) = examplesValidationAsRes o.
Proof. destruct m; reflexivity. Qed.

Lemma lastWrite_from (f : flag) (ms : list mutator) (acc : option bool) :
  fold_left (fun a m => if flag_eqb (touched m) f then Some (written m) else a) ms acc
  = match lastWrite f ms with Some b => Some b | None => acc end.
Proof.
  revert acc. induction ms as [|m ms IH]; intros acc; [reflexivity|].
  unfold lastWrite. simpl. rewrite IH, (IH (if flag_eqb (touched m) f then _ else None)).
  destruct (lastWrite f ms); [reflexivity|].
  destruct (flag_eqb (touched m) f); reflexivity.
Qed.

Lemma lastWrite_cons (f : flag) (m : mutator) (ms : list mutator) :
  lastWrite f (m :: ms)
  = match lastWrite f ms with
    | Some b => Some b
    | None => if flag_eqb (touched m) f then Some (written m) else None
    end.
Proof. unfold lastWrite at 1. simpl. apply lastWrite_from. Qed.

(** The loop over a list of constructors: each flag ends at the value of the
    last mutator that writes it, or stays as it was. *)
Lemma readFlag_applyOptions (ms : list mutator) (f : flag) (o : ValidationOptions) :
  readFlag f (applyOptions (map run ms) o) = default (readFlag f o) (lastWrite f ms).
Proof.
  revert o. induction ms as [|m ms IH]; intros o; [reflexivity|].
  change (applyOptions (map run (m :: ms)) o)
    with (applyOptions (map run ms) (run m o)).
  rewrite IH, lastWrite_cons, readFlag_run.
  destruct (lastWrite f ms); [reflexivity|].
  destruct (flag_eqb (touched m) f); reflexivity.
Qed.

Lemma asReq_applyOptions (ms : list mutator) (o : ValidationOptions) :
  examplesValidationAsReq (applyOptions (map run ms) o) = examplesValidationAsReq o.
Proof.
  revert o. induction ms as [|m ms IH]; intros o; [reflexivity|].
  change (applyOptions (map run (m :: ms)) o)
    with (applyOptions (map run ms) (run m o)).
  now rewrite IH, asReq_run.
Qed.

Lemma asRes_applyOptions (ms : list mutator) (o : ValidationOptions) :
  examplesValidationAsRes (applyOptions (map run ms) o) = examplesValidationAsRes o.
Proof.
  revert o. induction ms as [|m ms IH]; intros o; [reflexivity|].
  change (applyOptions (map run (m :: ms)) o)
    with (applyOptions (map run ms) (run m o)).
  now rewrite IH, asRes_run.
Qed.

(** Two bundles with the same six fields are the same bundle. *)
Lemma options_ext (a b : ValidationOptions) :
  examplesValidationAsReq a = examplesValidationAsReq b ->
  examplesValidationAsRes a = examplesValidationAsRes b ->
  (forall f, readFlag f a = readFlag f b) ->
  a = b.
Proof.
  intros Hq Hs Hf. destruct a, b. simpl in *.
  pose proof (Hf FExamples) as H1. pose proof (Hf FDefaults) as H2.
  pose proof (Hf FFormat) as H3. pose proof (Hf FPattern) as H4.
  simpl in *. congruence.
Qed.

Lemma touches_lastWrite (ms : list mutator) (f : flag) :
  touches ms f = match lastWrite f ms with Some _ => true | None => false end.
Proof.
  induction ms as [|m ms IH]; [reflexivity|].
  rewrite lastWrite_cons. unfold touches in *. simpl. rewrite IH.
  destruct (lastWrite f ms), (flag_eqb (touched m) f); reflexivity.
Qed.

Lemma lastWrite_app (f : flag) (xs ys : list mutator) :
  lastWrite f (xs ++ ys)
  = match lastWrite f ys with Some b => Some b | None => lastWrite f xs end.
Proof.
  unfold lastWrite at 1. rewrite fold_left_app. apply lastWrite_from.
Qed.

(** What a context answers once a bundle was attached by a non-empty call. *)
Lemma getValidationOptions_With (ctx : Context) (opts : list ValidationOption) :
  opts <> [] ->
  getValidationOptions (WithValidationOptions ctx opts) = applyOptions opts zeroOptions.
Proof. destruct opts; [congruence|reflexivity]. Qed.

End ValidationOptionsProperties.

Section ValidationOptionsClaims.

Import openapi3.

Lemma map_run_nonempty (ms : list mutator) : ms <> [] -> map run ms <> [].
Proof. destruct ms; [congruence|discriminate]. Qed.

(** C8: on a context with no attached validation bundle,
    [getValidationOptions] returns the all-default bundle: format validation
    off, pattern validation on, defaults validation on and examples
    validation on (the three "disabled" flags are false). The function is
    total, so it always returns. *)
Theorem getValidationOptions_without_bundle (ctx : Context) :
  (forall options, Value ctx validationOptionsKey <> Some (ValOptions options)) ->
  getValidationOptions ctx = zeroOptions
  /\ schemaFormatValidationEnabled (getValidationOptions ctx) = false
  /\ schemaPatternValidationDisabled (getValidationOptions ctx) = false
  /\ schemaDefaultsValidationDisabled (getValidationOptions ctx) = false
  /\ examplesValidationDisabled (getValidationOptions ctx) = false.
Proof.
  intros Hnone.
  assert (Hzero : getValidationOptions ctx = zeroOptions).
  { unfold getValidationOptions.
    destruct (Value ctx validationOptionsKey) as [[options|n]|] eqn:Hv;
      [exfalso; apply (Hnone options); reflexivity | reflexivity | reflexivity]. }
  rewrite Hzero. repeat split.
Qed.

Lemma getValidationOptions_without_bundle_witness :
  let ctx := WithValue Background (foreignKey 3) (ValForeign 1) in
  getValidationOptions ctx = zeroOptions
  /\ schemaFormatValidationEnabled (getValidationOptions ctx) = false
  /\ schemaPatternValidationDisabled (getValidationOptions ctx) = false
  /\ schemaDefaultsValidationDisabled (getValidationOptions ctx) = false
  /\ examplesValidationDisabled (getValidationOptions ctx) = false.
Proof.
  intros ctx. apply (getValidationOptions_without_bundle ctx).
  intros options. vm_compute. discriminate.
Defined.

(** C3, as stated, fails: two calls of [WithValidationOptions] whose
    mutators write disjoint flags do not give the union of both calls'
    effects. The second call starts from a fresh zero bundle and its binding
    hides the first one: after enabling format validation in a first call
    and disabling examples validation in a second, format validation reads
    as disabled again. *)
Lemma two_calls_are_not_a_union :
  let first := [MEnableSchemaFormatValidation] in
  let second := [MDisableExamplesValidation] in
  let ctx1 := WithValidationOptions Background (map run first) in
  let ctx2 := WithValidationOptions ctx1 (map run second) in
  (disjointFlags first second
   /\ readFlag FFormat (getValidationOptions ctx1) = true
   /\ touches second FFormat = false
   /\ readFlag FFormat (getValidationOptions ctx2) = false)
  /\ ~ (forall (ctx : Context) (ms1 ms2 : list mutator) (f : flag),
          ms1 <> [] -> ms2 <> [] -> disjointFlags ms1 ms2 ->
          readFlag f (getValidationOptions
                        (WithValidationOptions
                           (WithValidationOptions ctx (map run ms1)) (map run ms2)))
          = default false (lastWrite f (ms1 ++ ms2))).
Proof.
  intros first second ctx1 ctx2.
  assert (Hdis : disjointFlags first second).
  { intros f H1 H2. destruct f; vm_compute in H1, H2; discriminate. }
  split.
  - split; [exact Hdis|]. split; [reflexivity|]. split; reflexivity.
  - intros Hunion.
    specialize (Hunion Background first second FFormat).
    vm_compute in Hunion.
    assert (Hne1 : first <> []) by discriminate.
    assert (Hne2 : second <> []) by discriminate.
    specialize (Hunion Hne1 Hne2).
    assert (Hfalse : false = true); [|discriminate Hfalse].
    apply Hunion. intros f H1 H2. apply (Hdis f H1 H2).
Qed.

(** C3, amended: within one call of [WithValidationOptions] every flag ends
    at the value of the last mutator that writes it (last writer wins, zero
    value when none writes it); when the call's mutators split into two
    groups writing disjoint flags, the retrieved bundle is the union of both
    groups' effects and does not depend on the order of the groups. A second
    call with a non-empty list replaces the bundle: the context then answers
    with the second call's mutators applied to the zero bundle. The order of
    two mutators writing the same flag is observable. *)
Theorem WithValidationOptions_last_writer_wins :
  (forall (ctx : Context) (ms : list mutator) (f : flag),
      ms <> [] ->
      readFlag f (getValidationOptions (WithValidationOptions ctx (map run ms)))
      = default false (lastWrite f ms))
  /\ (forall (ctx : Context) (ms1 ms2 : list mutator),
        ms1 ++ ms2 <> [] -> disjointFlags ms1 ms2 ->
        getValidationOptions (WithValidationOptions ctx (map run (ms1 ++ ms2)))
        = getValidationOptions (WithValidationOptions ctx (map run (ms2 ++ ms1)))
        /\ forall f,
            readFlag f (getValidationOptions
                          (WithValidationOptions ctx (map run (ms1 ++ ms2))))
            = if touches ms1 f
              then readFlag f (applyOptions (map run ms1) zeroOptions)
              else readFlag f (applyOptions (map run ms2) zeroOptions))
  /\ (forall (ctx : Context) (opts1 opts2 : list ValidationOption),
        opts2 <> [] ->
        getValidationOptions
          (WithValidationOptions (WithValidationOptions ctx opts1) opts2)
        = applyOptions opts2 zeroOptions)
  /\ getValidationOptions
       (WithValidationOptions Background
          [EnableSchemaFormatValidation; DisableSchemaFormatValidation])
     <> getValidationOptions
          (WithValidationOptions Background
             [DisableSchemaFormatValidation; EnableSchemaFormatValidation]).
Proof.
  split; [|split; [|split]].
  - intros ctx ms f Hne.
    rewrite getValidationOptions_With by (apply map_run_nonempty; exact Hne).
    rewrite readFlag_applyOptions. destruct f; reflexivity.
  - intros ctx ms1 ms2 Hne Hdis.
    assert (Hne' : ms2 ++ ms1 <> []).
    { destruct ms1, ms2; simpl in *; congruence. }
    rewrite !getValidationOptions_With by (apply map_run_nonempty; assumption).
    split.
    + apply options_ext.
      * now rewrite !asReq_applyOptions.
      * now rewrite !asRes_applyOptions.
      * intros f. rewrite !readFlag_applyOptions, !lastWrite_app.
        pose proof (Hdis f) as Hf. rewrite !touches_lastWrite in Hf.
        destruct (lastWrite f ms1), (lastWrite f ms2); try reflexivity.
        exfalso. apply Hf; reflexivity.
    + intros f. rewrite !readFlag_applyOptions, lastWrite_app, touches_lastWrite.
      pose proof (Hdis f) as Hf. rewrite !touches_lastWrite in Hf.
      destruct (lastWrite f ms1), (lastWrite f ms2); try reflexivity.
      exfalso. apply Hf; reflexivity.
  - intros ctx opts1 opts2 Hne. apply getValidationOptions_With. exact Hne.
  - vm_compute. discriminate.
Qed.

Lemma WithValidationOptions_last_writer_wins_witness :
  readFlag FPattern
    (getValidationOptions
       (WithValidationOptions Background
          (map run [MDisableSchemaPatternValidation; MEnableExamplesValidation;
                    MEnableSchemaPatternValidation])))
  = false
  /\ getValidationOptions
       (WithValidationOptions Background
          (map run ([MEnableSchemaFormatValidation] ++ [MDisableExamplesValidation])))
     = getValidationOptions
         (WithValidationOptions Background
            (map run ([MDisableExamplesValidation] ++ [MEnableSchemaFormatValidation])))
  /\ getValidationOptions
       (WithValidationOptions
          (WithValidationOptions Background [EnableSchemaFormatValidation])
          [DisableExamplesValidation])
     = applyOptions [DisableExamplesValidation] zeroOptions.
Proof.
  destruct WithValidationOptions_last_writer_wins as [Hlast [Hunion [Htwice _]]].
  split; [|split].
  - apply (Hlast Background
             [MDisableSchemaPatternValidation; MEnableExamplesValidation;
              MEnableSchemaPatternValidation] FPattern).
    discriminate.
  - apply (Hunion Background [MEnableSchemaFormatValidation] [MDisableExamplesValidation]).
    + discriminate.
    + intros f H1 H2. destruct f; vm_compute in H1, H2; discriminate.
  - apply (Htwice Background). discriminate.
Defined.

End ValidationOptionsClaims.

(* ===================================================================== *)
(** ** Properties of the server                                           *)
(* ===================================================================== *)

Section EffectLemmas.

Import v1.

Lemma value_bind {A B : Type} (m : M A) (k : A -> M B) :
  value (bind m k) = value (k (value m)).
Proof. reflexivity. Qed.

Lemma effects_bind {A B : Type} (m : M A) (k : A -> M B) :
  effects (bind m k) = effects m ++ effects (k (value m)).
Proof. reflexivity. Qed.

Lemma asksAllowList_app (xs ys : list event) :
  asksAllowList (xs ++ ys) = asksAllowList xs || asksAllowList ys.
Proof. unfold asksAllowList. apply existsb_app. Qed.

Lemma writes_app (xs ys : list event) : writes (xs ++ ys) = writes xs ++ writes ys.
Proof. unfold writes. apply List.filter_app. Qed.

(** [isEntitled] only ever logs. *)
Lemma isEntitled_effects (s : Server) (ctx : Context) :
  asksAllowList (effects (isEntitled s ctx)) = false
  /\ writes (effects (isEntitled s ctx)) = [].
Proof.
  unfold isEntitled. destruct (getIdentityHeader ctx) as [idh|e]; [|split; reflexivity].
  destruct (identity.Entitlements idh !! "rhel"); split; reflexivity.
Qed.

Lemma getIdentityHeader_resolved (ctx : Context) (idh : identity.XRHID) :
  IdentityOf ctx = Some idh -> getIdentityHeader ctx = Ok idh.
Proof. intros H. unfold getIdentityHeader. now rewrite H. Qed.

End EffectLemmas.

Section IdentityClaims.

Import v1.

(** C4: when the request's processing context carries no identity record,
    [getIdentityHeader] fails with an HTTP error of status 500, a code of
    the server-error class and not of the client-error class; the error
    handler answers with that same status. *)
Theorem getIdentityHeader_missing_is_500 (ctx : Context) :
  IdentityOf ctx = None ->
  getIdentityHeader ctx
  = Err (echo.NewHTTPError 500 (MsgString "Identity Header missing in request handler"))
  /\ (forall e, getIdentityHeader ctx = Err e ->
        echo.Code (resolveHTTPError e) = 500
        /\ http.isServerError (echo.Code (resolveHTTPError e)) = true
        /\ http.isClientError (echo.Code (resolveHTTPError e)) = false).
Proof.
  intros Hnone. unfold getIdentityHeader. rewrite Hnone. split; [reflexivity|].
  intros e He. injection He as <-. repeat split.
Qed.

Lemma getIdentityHeader_missing_is_500_witness :
  let ctx := fixtures.request None "GET" None "" in
  getIdentityHeader ctx
  = Err (echo.NewHTTPError 500 (MsgString "Identity Header missing in request handler"))
  /\ (forall e, getIdentityHeader ctx = Err e ->
        echo.Code (resolveHTTPError e) = 500
        /\ http.isServerError (echo.Code (resolveHTTPError e)) = true
        /\ http.isClientError (echo.Code (resolveHTTPError e)) = false).
Proof.
  intros ctx. apply (getIdentityHeader_missing_is_500 ctx). reflexivity.
Defined.

(** C2, as stated, fails on the log level: the compatibility fallback is
    written with the logger's [Error] method, so the request of an identity
    without a "rhel" entry leaves one line at level ERROR and none at level
    WARN. *)
Lemma entitlement_fallback_is_not_logged_as_warning :
  let s := fixtures.serverWith (fixtures.allowListOf ∅) in
  let ctx := fixtures.request (Some fixtures.legacyId) "GET" None "" in
  identity.Entitlements fixtures.legacyId !! "rhel" = None
  /\ value (isEntitled s ctx) = true
  /\ effects (isEntitled s ctx)
     = [Logged echo.ERROR "RHEL entitlement not present in identity header"]
  /\ ~ (exists line, In (Logged echo.WARN line) (effects (isEntitled s ctx))).
Proof.
  intros s ctx. split; [reflexivity|]. split; [reflexivity|]. split; [reflexivity|].
  intros [line Hin]. vm_compute in Hin. destruct Hin as [Heq|[]]. discriminate Heq.
Qed.

(** C2, amended: for a resolved identity, [isEntitled] returns the "rhel"
    entry's [IsEntitled] flag whenever the entry is present, with no log
    line; when the entry is absent it returns true if and only if the account
    number is a non-empty string, and logs that fallback with one line at
    level ERROR. *)
Theorem isEntitled_rhel_entry_or_account_number
    (s : Server) (ctx : Context) (idh : identity.XRHID) :
  IdentityOf ctx = Some idh ->
  (forall entitled, identity.Entitlements idh !! "rhel" = Some entitled ->
     isEntitled s ctx = (identity.IsEntitled entitled, []))
  /\ (identity.Entitlements idh !! "rhel" = None ->
        (value (isEntitled s ctx) = true
         <-> identity.AccountNumber (identity.Identity idh) <> "")
        /\ effects (isEntitled s ctx)
           = [Logged echo.ERROR "RHEL entitlement not present in identity header"]).
Proof.
  intros Hid. unfold isEntitled. rewrite (getIdentityHeader_resolved ctx idh Hid).
  split.
  - intros entitled Hsome. rewrite Hsome. reflexivity.
  - intros Hnone. rewrite Hnone. split; [|reflexivity].
    cbn. destruct (String.eqb_spec (identity.AccountNumber (identity.Identity idh)) "")
      as [Heq|Hne]; simpl.
    + split; [discriminate|]. intros Hne. contradiction.
    + split; [intros _; exact Hne | reflexivity].
Qed.

Lemma isEntitled_rhel_entry_or_account_number_witness :
  let s := fixtures.serverWith (fixtures.allowListOf ∅) in
  isEntitled s (fixtures.request (Some fixtures.entitledId) "GET" None "") = (true, [])
  /\ (value (isEntitled s (fixtures.request (Some fixtures.bareId) "GET" None "")) = true
      <-> identity.AccountNumber (identity.Identity fixtures.bareId) <> "").
Proof.
  intros s. split.
  - destruct (isEntitled_rhel_entry_or_account_number s
                (fixtures.request (Some fixtures.entitledId) "GET" None "")
                fixtures.entitledId eq_refl) as [Hpresent _].
    apply (Hpresent (identity.mkServiceDetails true false)). reflexivity.
  - destruct (isEntitled_rhel_entry_or_account_number s
                (fixtures.request (Some fixtures.bareId) "GET" None "")
                fixtures.bareId eq_refl) as [_ Habsent].
    apply Habsent. reflexivity.
Defined.

End IdentityClaims.

Section DistroGateClaims.

Import v1.

Variable ErrorText : error -> string.

Lemma getDistro_unfold (s : Server) (ctx : Context) (distro : string) :
  getDistro ErrorText s ctx distro
  = bind (isEntitled s ctx) (fun _ =>
      match distribution.Get (tierRegistry s ctx) distro with
      | Err err =>
          if isDistributionNotFound err
          then ret (Err (echo.NewHTTPError 400 (MsgError err)))
          else ret (Err err)
      | Ok d =>
          match getIdentityHeader ctx with
          | Err err => ret (Err err)
          | Ok idHeader =>
              if distribution.IsRestricted d then
                bind (askAllowList s
                        (identity.OrgID (identity.Internal (identity.Identity idHeader)))
                        (distribution.Name d))
                     (fun answer =>
                        match snd answer with
                        | Some err =>
                            ret (Err (echo.NewHTTPError 500 (MsgString (ErrorText err))))
                        | None =>
                            if negb (fst answer) then
                              ret (Err (echo.NewHTTPError 403
                                          (MsgString
                                             ("This account's organization is not authorized to build "
                                              +:+ distribution.Name d +:+ " images"))))
                            else ret (Ok d)
                        end)
              else ret (Ok d)
          end
      end).
Proof.
  unfold getDistro, distroRegistry, tierRegistry, bind, ret, value. simpl.
  rewrite app_nil_r. reflexivity.
Qed.

(** C1: for a request whose identity header resolves, [getDistro] answers
    with HTTP 400 when the registry of the caller's tier does not know the
    name; with the distribution when it is not restricted; and for a
    restricted distribution with the distribution exactly when the
    allow-list answers yes for the caller's organization id and the
    distribution's name, with HTTP 500 when the allow-list lookup fails, and
    with HTTP 403 and a message naming the distribution when it answers
    no. *)
Theorem getDistro_case_analysis
    (s : Server) (ctx : Context) (distro : string) (idHeader : identity.XRHID) :
  IdentityOf ctx = Some idHeader ->
  let orgID := identity.OrgID (identity.Internal (identity.Identity idHeader)) in
  let answer d := common.IsAllowed (allowList s) orgID (distribution.Name d) in
  let outcome := value (getDistro ErrorText s ctx distro) in
  (distribution.Get (tierRegistry s ctx) distro = Err DistributionNotFound ->
     outcome = Err (echo.NewHTTPError 400 (MsgError DistributionNotFound)))
  /\ (forall d, distribution.Get (tierRegistry s ctx) distro = Ok d ->
        distribution.IsRestricted d = false -> outcome = Ok d)
  /\ (forall d, distribution.Get (tierRegistry s ctx) distro = Ok d ->
        distribution.IsRestricted d = true ->
        (outcome = Ok d <-> answer d = (true, None))
        /\ (forall err, snd (answer d) = Some err ->
              outcome = Err (echo.NewHTTPError 500 (MsgString (ErrorText err))))
        /\ (answer d = (false, None) ->
              outcome = Err (echo.NewHTTPError 403
                               (MsgString
                                  ("This account's organization is not authorized to build "
                                   +:+ distribution.Name d +:+ " images"))))).
Proof.
  intros Hid orgID answer outcome. subst outcome.
  rewrite getDistro_unfold, value_bind.
  rewrite (getIdentityHeader_resolved ctx idHeader Hid).
  split; [|split].
  - intros Hget. rewrite Hget. reflexivity.
  - intros d Hget Hopen. rewrite Hget, Hopen. reflexivity.
  - intros d Hget Hrestr. rewrite Hget, Hrestr, value_bind.
    unfold askAllowList. rewrite value_bind. cbn [value ret fst].
    fold orgID. fold (answer d).
    destruct (answer d) as [allowOk [err|]] eqn:Hans; cbn [fst snd].
    + split; [split; [discriminate | intros H; discriminate H] |].
      split; [intros err' H; injection H as <-; reflexivity | intros H; discriminate H].
    + destruct allowOk; cbn [negb].
      * split; [split; reflexivity |].
        split; [intros err' H; discriminate H | intros H; discriminate H].
      * split; [split; [discriminate | intros H; discriminate H] |].
        split; [intros err' H; discriminate H | reflexivity].
Qed.


(** C7: when the requested name resolves, in the registry of the caller's
    tier, to a distribution that is not restricted, [getDistro] returns it
    for any resolved identity, whatever its entitlements, and the allow-list
    is not asked. *)
Theorem getDistro_unrestricted_allowed
    (s : Server) (ctx : Context) (distro : string)
    (idHeader : identity.XRHID) (d : distribution.DistributionFile) :
  IdentityOf ctx = Some idHeader ->
  distribution.Get (tierRegistry s ctx) distro = Ok d ->
  distribution.IsRestricted d = false ->
  value (getDistro ErrorText s ctx distro) = Ok d
  /\ asksAllowList (effects (getDistro ErrorText s ctx distro)) = false.
Proof.
  intros Hid Hget Hopen.
  rewrite getDistro_unfold, value_bind, effects_bind.
  rewrite (getIdentityHeader_resolved ctx idHeader Hid), Hget, Hopen.
  split; [reflexivity|].
  rewrite asksAllowList_app. destruct (isEntitled_effects s ctx) as [-> _].
  reflexivity.
Qed.

End DistroGateClaims.

Section DistroGateWitnesses.

Import v1.

Lemma getDistro_case_analysis_witness :
  let s := fixtures.serverWith (fixtures.allowListOf {[ "org-1" := ["rhel-90-beta"] ]}) in
  let ctx := fixtures.request (Some fixtures.entitledId) "POST" None "" in
  value (getDistro fixtures.errorText s ctx "fedora-1")
  = Err (echo.NewHTTPError 400 (MsgError DistributionNotFound))
  /\ value (getDistro fixtures.errorText s ctx "centos-8") = Ok fixtures.centos8
  /\ (value (getDistro fixtures.errorText s ctx "rhel-90-beta") = Ok fixtures.rhel90beta
      <-> common.IsAllowed (allowList s) "org-1" "rhel-90-beta" = (true, None)).
Proof.
  intros s ctx.
  destruct (getDistro_case_analysis fixtures.errorText s ctx "fedora-1"
              fixtures.entitledId eq_refl) as [Hunknown _].
  destruct (getDistro_case_analysis fixtures.errorText s ctx "centos-8"
              fixtures.entitledId eq_refl) as [_ [Hopen _]].
  destruct (getDistro_case_analysis fixtures.errorText s ctx "rhel-90-beta"
              fixtures.entitledId eq_refl) as [_ [_ Hrestricted]].
  split; [apply Hunknown; reflexivity|].
  split; [apply (Hopen fixtures.centos8); reflexivity|].
  apply (Hrestricted fixtures.rhel90beta); reflexivity.
Defined.

Lemma getDistro_unrestricted_allowed_witness :
  let s := fixtures.serverWith (fixtures.allowListOf ∅) in
  let ctx := fixtures.request (Some fixtures.bareId) "POST" None "" in
  value (isEntitled s ctx) = false
  /\ value (getDistro fixtures.errorText s ctx "centos-8") = Ok fixtures.centos8
  /\ asksAllowList (effects (getDistro fixtures.errorText s ctx "centos-8")) = false.
Proof.
  intros s ctx. split; [reflexivity|].
  apply (getDistro_unrestricted_allowed fixtures.errorText s ctx "centos-8"
           fixtures.bareId fixtures.centos8); reflexivity.
Defined.

End DistroGateWitnesses.

Section BinderAndResponderClaims.

Import v1.

Variable ErrorText : error -> string.
Variable Target : Type.
Variable Decode : string -> Target -> Target * option error.

Lemma Bind_rejects (i : Target) (ctx : Context) :
  contentTypeOf ctx <> ["application/json"] ->
  Bind ErrorText Target Decode i ctx
  = ((i, Some (echo.NewHTTPError 415 (MsgString "request must be json-encoded"))), []).
Proof.
  intros Hne. unfold Bind.
  destruct (contentTypeOf ctx) as [|ct [|ct' rest]]; try reflexivity.
  cbn [length hd Nat.eqb negb orb].
  destruct (String.eqb_spec ct "application/json") as [->|Hct]; [congruence|reflexivity].
Qed.

Lemma Bind_decodes (i : Target) (ctx : Context) :
  contentTypeOf ctx = ["application/json"] ->
  Bind ErrorText Target Decode i ctx
  = (match snd (Decode (Body ctx) i) with
     | Some err =>
         (fst (Decode (Body ctx) i),
          Some (echo.NewHTTPError 400
                  (MsgString ("cannot parse request body: " +:+ ErrorText err))))
     | None => (fst (Decode (Body ctx) i), None)
     end, [BodyDecoded]).
Proof.
  intros Heq. unfold Bind. rewrite Heq. cbn [length hd Nat.eqb negb orb].
  rewrite String.eqb_refl. cbn [negb].
  destruct (snd (Decode (Body ctx) i)); reflexivity.
Qed.

(** The response written by [HTTPErrorHandler] on an uncommitted response:
    one write, without a body for HEAD and with the one-entry list
    otherwise. *)
Lemma HTTPErrorHandler_writes (s : Server) (err : error) (c : Context) :
  Committed c = false ->
  let he := resolveHTTPError err in
  writes (effects (HTTPErrorHandler ErrorText s err c))
  = [if String.eqb (Method c) http.MethodHead
     then WroteNoContent (echo.Code he)
     else WroteJSON (echo.Code he)
            (mkHTTPErrorList
               [mkHTTPError (strconv.Itoa (echo.Code he))
                            (Sprint ErrorText (echo.Message he))])].
Proof.
  intros Hopen he. unfold HTTPErrorHandler. fold he.
  rewrite effects_bind, writes_app, Hopen. cbn [negb].
  assert (Hlog : writes (effects
            (if (http.StatusInternalServerError <=? echo.Code he)
                && (echo.Code he <=? http.StatusNetworkAuthenticationRequired)
             then
               bind (logError ("Internal error " +:+ strconv.Itoa (echo.Code he) +:+ ": "
                               +:+ Sprint ErrorText (echo.Message he) +:+ ", "
                               +:+ ErrorText err))
                    (fun _ => if strings.HasSuffix (Path c) "/compose"
                              then emit ComposeErrorsInc else ret tt)
             else ret tt)) = []).
  { destruct ((http.StatusInternalServerError <=? echo.Code he)
              && (echo.Code he <=? http.StatusNetworkAuthenticationRequired));
      [|reflexivity].
    destruct (strings.HasSuffix (Path c) "/compose"); reflexivity. }
  rewrite Hlog. cbn [app].
  unfold NoContent, JSON.
  destruct (String.eqb (Method c) http.MethodHead), (WriteResult c); reflexivity.
Qed.

(** C10: [Bind] accepts a request only when its Content-Type header has
    exactly one value and that value is exactly "application/json"; with any
    other list of values (a media-type parameter, several values, no header)
    it fails with HTTP 415. *)
Theorem Bind_requires_exactly_application_json (i : Target) (ctx : Context) :
  (contentTypeOf ctx <> ["application/json"] ->
     value (Bind ErrorText Target Decode i ctx)
     = (i, Some (echo.NewHTTPError 415 (MsgString "request must be json-encoded"))))
  /\ (snd (value (Bind ErrorText Target Decode i ctx)) = None ->
        contentTypeOf ctx = ["application/json"]).
Proof.
  split.
  - intros Hne. rewrite (Bind_rejects i ctx Hne). reflexivity.
  - intros Hok.
    destruct (decide (contentTypeOf ctx = ["application/json"])) as [Heq|Hne];
      [exact Heq|].
    rewrite (Bind_rejects i ctx Hne) in Hok. discriminate Hok.
Qed.

(** C5, amended: a request whose Content-Type is anything other than the
    single value "application/json" fails in [Bind] with HTTP 415 and the
    body is not handed to the JSON decoder; for a request that is not a HEAD
    request and whose response is not committed yet, the error handler then
    writes status 415 with an [HTTPErrorList] of exactly one entry. *)
Theorem Bind_unsupported_media_type (s : Server) (i : Target) (c : Context) :
  contentTypeOf c <> ["application/json"] ->
  let err := echo.NewHTTPError 415 (MsgString "request must be json-encoded") in
  Bind ErrorText Target Decode i c = ((i, Some err), [])
  /\ (Committed c = false -> Method c <> "HEAD" ->
        exists body,
          writes (effects (HTTPErrorHandler ErrorText s err c)) = [WroteJSON 415 body]
          /\ Errors body = [mkHTTPError "415" "request must be json-encoded"]
          /\ length (Errors body) = 1%nat).
Proof.
  intros Hne err. split; [apply Bind_rejects; exact Hne|].
  intros Hopen Hmethod.
  exists (mkHTTPErrorList [mkHTTPError "415" "request must be json-encoded"]).
  rewrite (HTTPErrorHandler_writes s err c Hopen).
  destruct (String.eqb_spec (Method c) http.MethodHead) as [Hhead|_];
    [contradiction|].
  repeat split.
Qed.

(** Whatever the decoder is: with Content-Type "application/json", an error
    of the decoder becomes an HTTP 400, a client error and not a server
    error, whose detail is the text "cannot parse request body: " followed
    by the decoder's error. *)
Theorem Bind_malformed_body_is_400 (i : Target) (ctx : Context) (err : error) :
  contentTypeOf ctx = ["application/json"] ->
  snd (Decode (Body ctx) i) = Some err ->
  let answer :=
    echo.NewHTTPError 400
      (MsgString ("cannot parse request body: " +:+ ErrorText err)) in
  snd (value (Bind ErrorText Target Decode i ctx)) = Some answer
  /\ echo.Code (resolveHTTPError answer) = 400
  /\ http.isClientError (echo.Code (resolveHTTPError answer)) = true
  /\ http.isServerError (echo.Code (resolveHTTPError answer)) = false
  /\ Sprint ErrorText (echo.Message (resolveHTTPError answer))
     = "cannot parse request body: " +:+ ErrorText err.
Proof.
  intros Hjson Hbad answer. rewrite (Bind_decodes i ctx Hjson), Hbad.
  repeat split.
Qed.

(** C9: on a response that is not committed, the error handler answers a
    failing HEAD request with the error's status code and no body, never a
    JSON payload, and a failing request of any other method with the
    [HTTPErrorList] of the single entry whose title is the decimal status
    code and whose detail is the message. The status and message are those
    of the error itself when it is an HTTP error that wraps no other. *)
Theorem HTTPErrorHandler_head_or_json (s : Server) (err : error) (c : Context) :
  Committed c = false ->
  let he := resolveHTTPError err in
  (Method c = "HEAD" ->
     writes (effects (HTTPErrorHandler ErrorText s err c))
     = [WroteNoContent (echo.Code he)])
  /\ (Method c <> "HEAD" ->
        writes (effects (HTTPErrorHandler ErrorText s err c))
        = [WroteJSON (echo.Code he)
             (mkHTTPErrorList
                [mkHTTPError (strconv.Itoa (echo.Code he))
                             (Sprint ErrorText (echo.Message he))])])
  /\ (forall code msg,
        err = echo.NewHTTPError code msg -> echo.Code he = code /\ echo.Message he = msg).
Proof.
  intros Hopen he. pose proof (HTTPErrorHandler_writes s err c Hopen) as Hw.
  cbv zeta in Hw. fold he in Hw. rewrite Hw.
  split; [|split].
  - intros Hhead. rewrite Hhead. reflexivity.
  - intros Hother.
    destruct (String.eqb_spec (Method c) http.MethodHead) as [Hhead|_];
      [contradiction|reflexivity].
  - intros code msg ->. split; reflexivity.
Qed.

End BinderAndResponderClaims.

Section BinderAndResponderWitnesses.

Import v1.

Lemma Bind_requires_exactly_application_json_witness :
  let bind415 contentType :=
    value (Bind fixtures.errorText nat fixtures.decodeBraces 0%nat
             (fixtures.request (Some fixtures.entitledId) "POST" contentType "{}"))
    = (0%nat, Some (echo.NewHTTPError 415 (MsgString "request must be json-encoded"))) in
  bind415 (Some ["application/json; charset=utf-8"])
  /\ bind415 (Some ["application/json"; "application/json"])
  /\ bind415 None.
Proof.
  intros bind415. unfold bind415. split; [|split].
  - apply (Bind_requires_exactly_application_json fixtures.errorText nat
             fixtures.decodeBraces 0%nat
             (fixtures.request (Some fixtures.entitledId) "POST"
                (Some ["application/json; charset=utf-8"]) "{}")).
    vm_compute. discriminate.
  - apply (Bind_requires_exactly_application_json fixtures.errorText nat
             fixtures.decodeBraces 0%nat
             (fixtures.request (Some fixtures.entitledId) "POST"
                (Some ["application/json"; "application/json"]) "{}")).
    vm_compute. discriminate.
  - apply (Bind_requires_exactly_application_json fixtures.errorText nat
             fixtures.decodeBraces 0%nat
             (fixtures.request (Some fixtures.entitledId) "POST" None "{}")).
    vm_compute. discriminate.
Defined.

(** C5, as stated, fails for a HEAD request: with Content-Type text/plain
    [Bind] fails with HTTP 415, and the error handler answers the HEAD
    request with the status alone, so no [HTTPErrorList] is written. *)
Lemma unsupported_media_type_on_HEAD_has_no_body :
  let s := fixtures.serverWith (fixtures.allowListOf ∅) in
  let c := fixtures.request (Some fixtures.entitledId) "HEAD" (Some ["text/plain"]) "{}" in
  let err := echo.NewHTTPError 415 (MsgString "request must be json-encoded") in
  Bind fixtures.errorText nat fixtures.decodeBraces 0%nat c = ((0%nat, Some err), [])
  /\ effects (HTTPErrorHandler fixtures.errorText s err c) = [WroteNoContent 415]
  /\ ~ (exists code body,
          In (WroteJSON code body) (effects (HTTPErrorHandler fixtures.errorText s err c))).
Proof.
  intros s c err. split; [reflexivity|]. split; [reflexivity|].
  intros [code [body Hin]]. vm_compute in Hin. destruct Hin as [Heq|[]].
  discriminate Heq.
Qed.

Lemma Bind_unsupported_media_type_witness :
  let s := fixtures.serverWith (fixtures.allowListOf ∅) in
  let c := fixtures.request (Some fixtures.entitledId) "POST" (Some ["text/plain"]) "{}" in
  let err := echo.NewHTTPError 415 (MsgString "request must be json-encoded") in
  Bind fixtures.errorText nat fixtures.decodeBraces 0%nat c = ((0%nat, Some err), [])
  /\ exists body,
       writes (effects (HTTPErrorHandler fixtures.errorText s err c)) = [WroteJSON 415 body]
       /\ Errors body = [mkHTTPError "415" "request must be json-encoded"]
       /\ length (Errors body) = 1%nat.
Proof.
  intros s c err.
  assert (Hne : contentTypeOf c <> ["application/json"]).
  { vm_compute. discriminate. }
  destruct (Bind_unsupported_media_type fixtures.errorText nat fixtures.decodeBraces
              s 0%nat c Hne) as [Hbind Hwrite].
  split; [exact Hbind|]. apply Hwrite; [reflexivity|].
  vm_compute. discriminate.
Defined.

Lemma Bind_malformed_body_is_400_witness :
  let ctx := fixtures.request (Some fixtures.entitledId) "POST"
               (Some ["application/json"]) "name: centos" in
  let answer :=
    echo.NewHTTPError 400 (MsgString "cannot parse request body: unexpected failure") in
  snd (value (Bind fixtures.errorText nat fixtures.decodeBraces 0%nat ctx)) = Some answer
  /\ echo.Code (resolveHTTPError answer) = 400
  /\ http.isClientError (echo.Code (resolveHTTPError answer)) = true
  /\ http.isServerError (echo.Code (resolveHTTPError answer)) = false
  /\ Sprint fixtures.errorText (echo.Message (resolveHTTPError answer))
     = "cannot parse request body: unexpected failure".
Proof.
  intros ctx answer.
  apply (Bind_malformed_body_is_400 fixtures.errorText nat fixtures.decodeBraces
           0%nat ctx (OtherError 7)); reflexivity.
Defined.

Lemma HTTPErrorHandler_head_or_json_witness :
  let s := fixtures.serverWith (fixtures.allowListOf ∅) in
  let err := echo.NewHTTPError 403 (MsgString "not authorized") in
  writes (effects (HTTPErrorHandler fixtures.errorText s err
                     (fixtures.request (Some fixtures.entitledId) "HEAD" None "")))
  = [WroteNoContent 403]
  /\ writes (effects (HTTPErrorHandler fixtures.errorText s err
                        (fixtures.request (Some fixtures.entitledId) "GET" None "")))
     = [WroteJSON 403 (mkHTTPErrorList [mkHTTPError "403" "not authorized"])].
Proof.
  intros s err. split.
  - destruct (HTTPErrorHandler_head_or_json fixtures.errorText s err
                (fixtures.request (Some fixtures.entitledId) "HEAD" None "") eq_refl)
      as [Hhead _].
    apply Hhead. reflexivity.
  - destruct (HTTPErrorHandler_head_or_json fixtures.errorText s err
                (fixtures.request (Some fixtures.entitledId) "GET" None "") eq_refl)
      as [_ [Hother _]].
    apply Hother. vm_compute. discriminate.
Defined.

End BinderAndResponderWitnesses.

(* ===================================================================== *)
(** ** The gate on concrete requests                                      *)
(* ===================================================================== *)

Section GateExamples.

Import v1.

(** An entitled caller whose organization is not on the allow-list is
    refused a restricted distribution with HTTP 403. *)
Example restricted_not_listed_is_403 :
  value (getDistro fixtures.errorText
           (fixtures.serverWith (fixtures.allowListOf ∅))
           (fixtures.request (Some fixtures.entitledId) "POST" None "")
           "rhel-90-beta")
  = Err (echo.NewHTTPError 403
           (MsgString
              "This account's organization is not authorized to build rhel-90-beta images")).
Proof. reflexivity. Qed.

(** Adding the organization to the allow-list turns the same request into a
    success. *)
Example restricted_listed_is_allowed :
  value (getDistro fixtures.errorText
           (fixtures.serverWith (fixtures.allowListOf {[ "org-1" := ["rhel-90-beta"] ]}))
           (fixtures.request (Some fixtures.entitledId) "POST" None "")
           "rhel-90-beta")
  = Ok fixtures.rhel90beta.
Proof. reflexivity. Qed.

(** A failing allow-list lookup is an HTTP 500 carrying the lookup's error
    text. *)
Example restricted_lookup_failure_is_500 :
  value (getDistro fixtures.errorText
           (fixtures.serverWith (fixtures.brokenAllowList (OtherError 3)))
           (fixtures.request (Some fixtures.entitledId) "POST" None "")
           "rhel-90-beta")
  = Err (echo.NewHTTPError 500 (MsgString "unexpected failure")).
Proof. reflexivity. Qed.

(** A caller that is not entitled does not see the restricted distribution
    at all: the name is unknown in its registry, an HTTP 400, and the
    fallback is logged on the way. *)
Example restricted_hidden_from_non_entitled :
  getDistro fixtures.errorText
    (fixtures.serverWith (fixtures.allowListOf {[ "org-2" := ["rhel-90-beta"] ]}))
    (fixtures.request (Some fixtures.bareId) "POST" None "")
    "rhel-90-beta"
  = (Err (echo.NewHTTPError 400 (MsgError DistributionNotFound)),
     [Logged echo.ERROR "RHEL entitlement not present in identity header"]).
Proof. reflexivity. Qed.

(** A server error on the compose route is logged and counted before the
    one write of the response. *)
Example internal_error_on_compose :
  effects (HTTPErrorHandler fixtures.errorText
             (fixtures.serverWith (fixtures.allowListOf ∅)) (OtherError 1)
             (fixtures.request (Some fixtures.entitledId) "POST"
                (Some ["application/json"]) "{}"))
  = [Logged echo.ERROR "Internal error 500: Internal Server Error, unexpected failure";
     ComposeErrorsInc;
     WroteJSON 500 (mkHTTPErrorList [mkHTTPError "500" "Internal Server Error"])].
Proof. reflexivity. Qed.

End GateExamples.

(* ===================================================================== *)
(** ** Further properties of the validation options                       *)
(* ===================================================================== *)

Section ValidationOptionsAlgebra.

Import openapi3.

(** X1: on any bundle, two constructors' closures that write different flags
    commute; of two that write the same flag the later one alone decides;
    and each closure is idempotent. *)
Theorem mutators_commute_or_overwrite (m1 m2 : mutator) (o : ValidationOptions) :
  (touched m1 <> touched m2 -> run m1 (run m2 o) = run m2 (run m1 o))
  /\ (touched m1 = touched m2 -> run m2 (run m1 o) = run m2 o)
  /\ run m1 (run m1 o) = run m1 o.
Proof.
  split; [|split].
  - intros Hne. destruct m1, m2; try reflexivity; exfalso; apply Hne; reflexivity.
  - intros Heq. destruct m1, m2; try reflexivity; discriminate Heq.
  - destruct m1; reflexivity.
Qed.

Lemma mutators_commute_or_overwrite_witness :
  let o := mkValidationOptions true false true false true false in
  run MDisableExamplesValidation (run MEnableSchemaFormatValidation o)
  = run MEnableSchemaFormatValidation (run MDisableExamplesValidation o)
  /\ run MEnableSchemaPatternValidation (run MDisableSchemaPatternValidation o)
     = run MEnableSchemaPatternValidation o.
Proof.
  intros o. split.
  - destruct (mutators_commute_or_overwrite MDisableExamplesValidation
                MEnableSchemaFormatValidation o) as [Hcomm _].
    apply Hcomm. discriminate.
  - destruct (mutators_commute_or_overwrite MDisableSchemaPatternValidation
                MEnableSchemaPatternValidation o) as [_ [Hover _]].
    apply Hover. reflexivity.
Defined.

(** X2: [WithValidationOptions] only ever binds its own key: what the
    context answers for a key of another package is unchanged, whatever the
    options; and a call without options leaves the retrieved bundle as it
    was, also when one was attached before. *)
Theorem WithValidationOptions_keeps_other_values
    (ctx : Context) (opts : list ValidationOption) (n : nat) :
  Value (WithValidationOptions ctx opts) (foreignKey n) = Value ctx (foreignKey n)
  /\ getValidationOptions (WithValidationOptions ctx []) = getValidationOptions ctx.
Proof. split; [destruct opts; reflexivity | reflexivity]. Qed.

(** X3: none of the eight option constructors reaches
    [examplesValidationAsReq] or [examplesValidationAsRes]: after a call with
    any non-empty list of them both flags read false. *)
Theorem WithValidationOptions_never_sets_examples_direction
    (ctx : Context) (ms : list mutator) :
  ms <> [] ->
  examplesValidationAsReq
    (getValidationOptions (WithValidationOptions ctx (map run ms))) = false
  /\ examplesValidationAsRes
       (getValidationOptions (WithValidationOptions ctx (map run ms))) = false.
Proof.
  intros Hne. rewrite getValidationOptions_With by (apply map_run_nonempty; exact Hne).
  rewrite asReq_applyOptions, asRes_applyOptions. split; reflexivity.
Qed.

Lemma WithValidationOptions_never_sets_examples_direction_witness :
  let ctx :=
    WithValue Background validationOptionsKey
      (ValOptions (mkValidationOptions true true false false false false)) in
  let ms := [MDisableExamplesValidation; MEnableSchemaFormatValidation] in
  examplesValidationAsReq
    (getValidationOptions (WithValidationOptions ctx (map run ms))) = false
  /\ examplesValidationAsRes
       (getValidationOptions (WithValidationOptions ctx (map run ms))) = false.
Proof.
  intros ctx ms. apply (WithValidationOptions_never_sets_examples_direction ctx ms).
  discriminate.
Defined.

(** X4: a call whose mutators all restate a default (each writes false)
    attaches the all-default bundle, also on a context that carried another
    bundle: the earlier settings are dropped, not kept. *)
Theorem WithValidationOptions_defaults_reset (ctx : Context) (ms : list mutator) :
  ms <> [] ->
  (forall m, In m ms -> written m = false) ->
  getValidationOptions (WithValidationOptions ctx (map run ms)) = zeroOptions.
Proof.
  intros Hne Hall. rewrite getValidationOptions_With by (apply map_run_nonempty; exact Hne).
  apply options_ext.
  - apply asReq_applyOptions.
  - apply asRes_applyOptions.
  - intros f. rewrite readFlag_applyOptions.
    assert (Hlw : forall b, lastWrite f ms = Some b -> b = false).
    { clear Hne. induction ms as [|m ms IH]; intros b Hb; [discriminate Hb|].
      rewrite lastWrite_cons in Hb.
      destruct (lastWrite f ms) as [b'|] eqn:Hrest.
      - injection Hb as <-. apply IH; [|reflexivity].
        intros m' Hin. apply Hall. right. exact Hin.
      - destruct (flag_eqb (touched m) f); [|discriminate Hb].
        injection Hb as <-. apply Hall. left. reflexivity. }
    destruct (lastWrite f ms) as [b|]; [|destruct f; reflexivity].
    rewrite (Hlw b eq_refl). destruct f; reflexivity.
Qed.

Lemma WithValidationOptions_defaults_reset_witness :
  let ctx :=
    WithValidationOptions Background (map run [MDisableSchemaPatternValidation]) in
  schemaPatternValidationDisabled (getValidationOptions ctx) = true
  /\ getValidationOptions
       (WithValidationOptions ctx (map run [MDisableSchemaFormatValidation]))
     = zeroOptions.
Proof.
  intros ctx. split; [reflexivity|].
  apply (WithValidationOptions_defaults_reset ctx [MDisableSchemaFormatValidation]).
  - discriminate.
  - intros m [<-|[]]. reflexivity.
Defined.

End ValidationOptionsAlgebra.

(* ===================================================================== *)
(** ** Properties of the route prefix                                     *)
(* ===================================================================== *)

Section RouteProperties.

Import v1.

Lemma append_String (c : ascii) (s t : string) :
  String c s +:+ t = String c (s +:+ t).
Proof. reflexivity. Qed.

Lemma append_assoc (s t u : string) : (s +:+ t) +:+ u = s +:+ (t +:+ u).
Proof.
  induction s as [|c s IH]; [reflexivity|].
  rewrite !append_String, IH. reflexivity.
Qed.

Lemma append_empty_r (s : string) : s +:+ "" = s.
Proof.
  induction s as [|c s IH]; [reflexivity|]. rewrite append_String, IH. reflexivity.
Qed.

Lemma Split_nonempty (s : string) (sep : ascii) : strings.Split s sep <> [].
Proof.
  destruct s as [|c s]; [discriminate|]. simpl.
  destruct (Ascii.eqb c sep); [discriminate|].
  destruct (strings.Split s sep); discriminate.
Qed.

Lemma majorVersion_String (c : ascii) (version : string) :
  majorVersion (String c version)
  = if Ascii.eqb c "."%char then "" else String c (majorVersion version).
Proof.
  unfold majorVersion. simpl. destruct (Ascii.eqb c "."%char); [reflexivity|].
  pose proof (Split_nonempty version "."%char) as Hne.
  destruct (strings.Split version "."%char); [congruence|reflexivity].
Qed.

(** The major version is the part of the version before its first dot. *)
Lemma majorVersion_prefix (version : string) :
  (exists rest, version = majorVersion version +:+ rest
                /\ (rest = "" \/ exists r, rest = String "."%char r))
  /\ (forall n, String.get n (majorVersion version) <> Some "."%char).
Proof.
  induction version as [|c version [[rest [Hsplit Hrest]] Hnodot]].
  - split; [exists ""; split; [reflexivity|left; reflexivity]|].
    intros n. destruct n; discriminate.
  - rewrite majorVersion_String.
    destruct (Ascii.eqb_spec c "."%char) as [->|Hc].
    + split; [exists (String "."%char version); split;
              [reflexivity | right; exists version; reflexivity]|].
      intros n. destruct n; discriminate.
    + split.
      * exists rest. rewrite append_String, <- Hsplit. split; [reflexivity|exact Hrest].
      * intros [|n]; simpl; [congruence|apply Hnodot].
Qed.

(** X5: [RoutePrefix] reads only PATH_PREFIX and APP_NAME; each falls back
    to its default on its own when unset ("api", "image-builder"); a
    variable that is set is used as it is, the empty string included. *)
Theorem RoutePrefix_environment (env : os.Environ) :
  RoutePrefix ∅ = "/api/image-builder"
  /\ (forall k v, k <> "PATH_PREFIX" -> k <> "APP_NAME" ->
        RoutePrefix (<[k := v]> env) = RoutePrefix env)
  /\ (forall p, RoutePrefix (<["PATH_PREFIX" := p]> env)
                = "/" +:+ p +:+ "/" +:+ default "image-builder" (env !! "APP_NAME"))
  /\ (forall a, RoutePrefix (<["APP_NAME" := a]> env)
                = "/" +:+ default "api" (env !! "PATH_PREFIX") +:+ "/" +:+ a)
  /\ RoutePrefix (<["PATH_PREFIX" := ""]> (<["APP_NAME" := ""]> env)) = "//".
Proof.
  unfold RoutePrefix, os.LookupEnv. unfold os.Environ in *.
  split; [reflexivity|]. split; [|split; [|split]].
  - intros k v Hp Ha. rewrite !lookup_insert_ne by congruence. reflexivity.
  - intros p. rewrite lookup_insert_eq, lookup_insert_ne by discriminate.
    destruct (env !! "APP_NAME"); reflexivity.
  - intros a. rewrite lookup_insert_eq, lookup_insert_ne by discriminate.
    destruct (env !! "PATH_PREFIX"); reflexivity.
  - rewrite lookup_insert_eq, lookup_insert_ne by discriminate.
    rewrite lookup_insert_eq. reflexivity.
Qed.

(** X6: the two route groups [Attach] registers: the prefix of the
    exact-version group is the URL of the server added to the document, and
    it extends the prefix of the major-version group by nothing or by a dot
    and the rest of the version; the major version itself has no dot. For a
    version without a dot both groups have the same prefix. *)
Theorem route_groups_nest (env : os.Environ) (version : string) :
  exactGroupPrefix env version = serverURL env version
  /\ (exists rest,
        exactGroupPrefix env version = majorGroupPrefix env version +:+ rest
        /\ (rest = "" \/ exists r, rest = String "."%char r))
  /\ (forall n, String.get n (majorVersion version) <> Some "."%char)
  /\ ((forall n, String.get n version <> Some "."%char) ->
        majorGroupPrefix env version = exactGroupPrefix env version).
Proof.
  destruct (majorVersion_prefix version) as [[rest [Hsplit Hrest]] Hnodot].
  split; [reflexivity|]. split; [|split; [exact Hnodot|]].
  - exists rest. split; [|exact Hrest].
    unfold exactGroupPrefix, majorGroupPrefix.
    rewrite !append_assoc, <- Hsplit. reflexivity.
  - intros Hplain. unfold exactGroupPrefix, majorGroupPrefix. do 2 f_equal.
    clear rest Hsplit Hrest Hnodot.
    induction version as [|c version IH]; [reflexivity|].
    rewrite majorVersion_String.
    destruct (Ascii.eqb_spec c "."%char) as [->|Hc].
    + exfalso. apply (Hplain 0%nat). reflexivity.
    + f_equal. apply IH. intros n. apply (Hplain (S n)).
Qed.

Lemma route_groups_nest_witness :
  majorGroupPrefix ∅ "1" = exactGroupPrefix ∅ "1"
  /\ majorGroupPrefix ∅ "1.0" = "/api/image-builder/v1"
  /\ exactGroupPrefix ∅ "1.0" = "/api/image-builder/v1.0".
Proof.
  split; [|split; reflexivity].
  destruct (route_groups_nest ∅ "1") as [_ [_ [_ Hsame]]].
  apply Hsame. intros [|[|n]]; discriminate.
Defined.

End RouteProperties.

Section RoutePrefixWitness.

Import v1.

Lemma RoutePrefix_environment_witness :
  RoutePrefix (<["HOME" := "/root"]> ∅) = RoutePrefix ∅
  /\ RoutePrefix (<["PATH_PREFIX" := ""]> ∅) = "//image-builder".
Proof.
  destruct (RoutePrefix_environment ∅) as [_ [Hother [Hprefix _]]].
  split.
  - apply Hother; discriminate.
  - apply (Hprefix "").
Defined.

End RoutePrefixWitness.

(* ===================================================================== *)
(** ** Further properties of the binder and of the error handler          *)
(* ===================================================================== *)

Section HandlerEffects.

Import v1.

Variable ErrorText : error -> string.

(** Whether the handler treats a status code as an internal error. *)
Lemma internal_range (code : Z) :
  (http.StatusInternalServerError <=? code)
  && (code <=? http.StatusNetworkAuthenticationRequired) = true
  <-> 500 <= code <= 511.
Proof.
  unfold http.StatusInternalServerError, http.StatusNetworkAuthenticationRequired.
  rewrite andb_true_iff, !Z.leb_le. reflexivity.
Qed.

(** Everything [HTTPErrorHandler] does, in order. *)
Lemma HTTPErrorHandler_effects (s : Server) (err : error) (c : Context) :
  let he := resolveHTTPError err in
  effects (HTTPErrorHandler ErrorText s err c)
  = (if (500 <=? echo.Code he) && (echo.Code he <=? 511)
     then Logged echo.ERROR
            ("Internal error " +:+ strconv.Itoa (echo.Code he) +:+ ": "
             +:+ Sprint ErrorText (echo.Message he) +:+ ", " +:+ ErrorText err)
          :: (if strings.HasSuffix (Path c) "/compose" then [ComposeErrorsInc] else [])
     else [])
    ++ (if Committed c then []
        else (if String.eqb (Method c) "HEAD"
              then WroteNoContent (echo.Code he)
              else WroteJSON (echo.Code he)
                     (mkHTTPErrorList
                        [mkHTTPError (strconv.Itoa (echo.Code he))
                                     (Sprint ErrorText (echo.Message he))]))
             :: match WriteResult c with
                | Some e => [Logged echo.ERROR (ErrorText e)]
                | None => []
                end).
Proof.
  intros he. unfold HTTPErrorHandler, NoContent, JSON. fold he.
  change http.StatusInternalServerError with 500.
  change http.StatusNetworkAuthenticationRequired with 511.
  change http.MethodHead with "HEAD".
  rewrite effects_bind. f_equal.
  - destruct ((500 <=? echo.Code he) && (echo.Code he <=? 511)); [|reflexivity].
    destruct (strings.HasSuffix (Path c) "/compose"); reflexivity.
  - destruct (Committed c); [reflexivity|]. cbn [negb].
    destruct (String.eqb (Method c) "HEAD"), (WriteResult c); reflexivity.
Qed.

End HandlerEffects.

Section SuffixLemmas.

Lemma length_append (s t : string) :
  String.length (s +:+ t) = (String.length s + String.length t)%nat.
Proof.
  induction s as [|c s IH]; [reflexivity|].
  rewrite append_String. simpl. rewrite IH. reflexivity.
Qed.

Lemma substring_whole (s : string) : String.substring 0 (String.length s) s = s.
Proof. induction s as [|c s IH]; [reflexivity|]. simpl. rewrite IH. reflexivity. Qed.

Lemma substring_after (p s : string) (m : nat) :
  String.substring (String.length p) m (p +:+ s) = String.substring 0 m s.
Proof.
  induction p as [|c p IH]; [reflexivity|]. rewrite append_String. simpl. exact IH.
Qed.

Lemma substring_split (s : string) (k : nat) :
  (k <= String.length s)%nat ->
  s = String.substring 0 k s +:+ String.substring k (String.length s - k) s.
Proof.
  revert k. induction s as [|c s IH]; intros k Hk.
  - simpl in Hk. assert (k = 0%nat) as -> by lia. reflexivity.
  - destruct k as [|k].
    + simpl. rewrite substring_whole. reflexivity.
    + simpl in Hk. simpl. rewrite append_String. f_equal. apply IH. lia.
Qed.

(** [strings.HasSuffix] holds exactly of the strings that end with the
    suffix. *)
Lemma HasSuffix_spec (s suffix : string) :
  strings.HasSuffix s suffix = true <-> exists p, s = p +:+ suffix.
Proof.
  unfold strings.HasSuffix. split.
  - destruct (Nat.leb_spec (String.length suffix) (String.length s)) as [Hle|Hlt];
      [|discriminate].
    intros Heq. apply String.eqb_eq in Heq.
    exists (String.substring 0 (String.length s - String.length suffix) s).
    pose proof (substring_split s (String.length s - String.length suffix)) as Hsplit.
    replace (String.length s - (String.length s - String.length suffix))%nat
      with (String.length suffix) in Hsplit by lia.
    rewrite Heq in Hsplit. apply Hsplit. lia.
  - intros [p ->]. rewrite length_append.
    destruct (Nat.leb_spec (String.length suffix)
                (String.length p + String.length suffix)) as [_|Hlt]; [|lia].
    replace (String.length p + String.length suffix - String.length suffix)%nat
      with (String.length p) by lia.
    rewrite substring_after, substring_whole. apply String.eqb_refl.
Qed.

End SuffixLemmas.

Section BinderAndResponderProperties.

Import v1.

Variable ErrorText : error -> string.
Variable Target : Type.
Variable Decode : string -> Target -> Target * option error.

(** X7: [Bind] hands the body to the decoder exactly when the Content-Type
    is accepted, and then once; the error it returns, if any, is an HTTP 415
    or an HTTP 400 that wraps nothing, so never a server error; it succeeds
    exactly when the Content-Type is accepted and the decoder succeeds, and
    then the bound value is the decoder's; on a 415 the target is left as it
    was. *)
Theorem Bind_outcomes (i : Target) (ctx : Context) :
  let r := Bind ErrorText Target Decode i ctx in
  effects r = (if decide (contentTypeOf ctx = ["application/json"])
               then [BodyDecoded] else [])
  /\ (forall e, snd (value r) = Some e ->
        exists code msg,
          e = echo.NewHTTPError code msg
          /\ (code = 415 \/ code = 400)
          /\ http.isServerError code = false)
  /\ (snd (value r) = None
      <-> contentTypeOf ctx = ["application/json"] /\ snd (Decode (Body ctx) i) = None)
  /\ (snd (value r) = None -> fst (value r) = fst (Decode (Body ctx) i))
  /\ (contentTypeOf ctx <> ["application/json"] -> fst (value r) = i).
Proof.
  intros r. subst r.
  destruct (decide (contentTypeOf ctx = ["application/json"])) as [Hjson|Hother].
  - rewrite (Bind_decodes ErrorText Target Decode i ctx Hjson).
    destruct (snd (Decode (Body ctx) i)) as [err|] eqn:Hdec; cbn [value effects fst snd].
    + split; [reflexivity|]. split.
      { intros e He. injection He as <-. eexists _, _.
        split; [reflexivity|]. split; [right; reflexivity | reflexivity]. }
      split; [split; [discriminate | intros [_ H]; discriminate H] |].
      split; [discriminate | intros H; contradiction].
    + split; [reflexivity|]. split; [discriminate|].
      split; [split; [intros _; split; [exact Hjson|reflexivity] | reflexivity] |].
      split; [reflexivity | intros H; contradiction].
  - rewrite (Bind_rejects ErrorText Target Decode i ctx Hother).
    cbn [value effects fst snd].
    split; [reflexivity|]. split.
    { intros e He. injection He as <-. eexists _, _.
      split; [reflexivity|]. split; [left; reflexivity | reflexivity]. }
    split; [split; [discriminate | intros [H _]; contradiction] |].
    split; [discriminate | reflexivity].
Qed.

(** X8: the error handler writes the response at most once: not at all on a
    committed response and exactly once otherwise, whatever the error, the
    method and the outcome of the write. *)
Theorem HTTPErrorHandler_writes_once (s : Server) (err : error) (c : Context) :
  length (writes (effects (HTTPErrorHandler ErrorText s err c)))
  = if Committed c then 0%nat else 1%nat.
Proof.
  rewrite HTTPErrorHandler_effects, writes_app.
  assert (Hlog : forall code line, writes
            (if (500 <=? code) && (code <=? 511)
             then Logged echo.ERROR line
                  :: (if strings.HasSuffix (Path c) "/compose"
                      then [ComposeErrorsInc] else [])
             else []) = []).
  { intros code line. destruct ((500 <=? code) && (code <=? 511)); [|reflexivity].
    destruct (strings.HasSuffix (Path c) "/compose"); reflexivity. }
  rewrite Hlog. destruct (Committed c); [reflexivity|].
  destruct (String.eqb (Method c) "HEAD"), (WriteResult c); reflexivity.
Qed.

(** X9: the [ComposeErrors] counter is incremented at most once, and exactly
    when the answered status is between 500 and 511 and the route path ends
    with "/compose"; this does not depend on whether the response is
    committed. *)
Theorem HTTPErrorHandler_counts_compose_errors (s : Server) (err : error) (c : Context) :
  let code := echo.Code (resolveHTTPError err) in
  (composeErrors (effects (HTTPErrorHandler ErrorText s err c)) = 1%nat
   <-> 500 <= code <= 511 /\ exists p, Path c = p +:+ "/compose")
  /\ (composeErrors (effects (HTTPErrorHandler ErrorText s err c)) <= 1)%nat.
Proof.
  intros code. rewrite HTTPErrorHandler_effects. fold code.
  unfold composeErrors. rewrite List.filter_app, length_app.
  assert (Hrest : length (List.filter isComposeErrorsInc
            (if Committed c then []
             else (if String.eqb (Method c) "HEAD"
                   then WroteNoContent code
                   else WroteJSON code
                          (mkHTTPErrorList
                             [mkHTTPError (strconv.Itoa code)
                                (Sprint ErrorText (echo.Message (resolveHTTPError err)))]))
                  :: match WriteResult c with
                     | Some e => [Logged echo.ERROR (ErrorText e)]
                     | None => []
                     end)) = 0%nat).
  { destruct (Committed c); [reflexivity|].
    destruct (String.eqb (Method c) "HEAD"), (WriteResult c); reflexivity. }
  rewrite Hrest, Nat.add_0_r. clear Hrest.
  pose proof (HasSuffix_spec (Path c) "/compose") as Hsuffix.
  destruct ((500 <=? code) && (code <=? 511)) eqn:Hrange.
  - apply andb_true_iff in Hrange. rewrite !Z.leb_le in Hrange.
    destruct (strings.HasSuffix (Path c) "/compose"); cbn.
    + split; [|lia]. split; [intros _; split; [lia | apply Hsuffix; reflexivity] | reflexivity].
    + split; [|lia]. split; [discriminate|].
      intros [_ Hp]. apply Hsuffix in Hp. discriminate Hp.
  - apply andb_false_iff in Hrange. rewrite !Z.leb_gt in Hrange. cbn.
    split; [|lia]. split; [discriminate | intros [Hc _]; lia].
Qed.

(** X10: an HTTP error that wraps another HTTP error is answered with the
    wrapped one: the written response and the counter are those of the
    wrapped error taken alone, whatever the outer error's code and message
    are and whatever the wrapped error wraps in turn (one level is
    unwrapped, no more). *)
Theorem HTTPErrorHandler_answers_wrapped_error
    (s : Server) (c : Context) (code : Z) (msg : message) (inner : echo.HTTPError) :
  let outer := HTTPErrorPtr (mkEchoHTTPError code msg (Some (HTTPErrorPtr inner))) in
  let alone := echo.NewHTTPError (echo.Code inner) (echo.Message inner) in
  resolveHTTPError outer = inner
  /\ writes (effects (HTTPErrorHandler ErrorText s outer c))
     = writes (effects (HTTPErrorHandler ErrorText s alone c))
  /\ composeErrors (effects (HTTPErrorHandler ErrorText s outer c))
     = composeErrors (effects (HTTPErrorHandler ErrorText s alone c)).
Proof.
  intros outer alone. split; [reflexivity|].
  rewrite !HTTPErrorHandler_effects.
  change (resolveHTTPError outer) with inner.
  change (echo.Code (resolveHTTPError alone)) with (echo.Code inner).
  change (echo.Message (resolveHTTPError alone)) with (echo.Message inner).
  unfold composeErrors. rewrite !writes_app, !List.filter_app.
  destruct ((500 <=? echo.Code inner) && (echo.Code inner <=? 511));
    [destruct (strings.HasSuffix (Path c) "/compose")|]; split; reflexivity.
Qed.

(** X11: an error that is not an [*echo.HTTPError] is answered with status
    500 and the fixed detail "Internal Server Error": its own text does not
    reach the response, it goes to the log line written first. *)
Theorem HTTPErrorHandler_hides_plain_errors (s : Server) (err : error) (c : Context) :
  (forall he, err <> HTTPErrorPtr he) ->
  Committed c = false ->
  Method c <> "HEAD" ->
  writes (effects (HTTPErrorHandler ErrorText s err c))
  = [WroteJSON 500 (mkHTTPErrorList [mkHTTPError "500" "Internal Server Error"])]
  /\ head (effects (HTTPErrorHandler ErrorText s err c))
     = Some (Logged echo.ERROR
               ("Internal error 500: Internal Server Error, " +:+ ErrorText err)).
Proof.
  intros Hplain Hopen Hmethod.
  assert (Hresolve : resolveHTTPError err
                     = mkEchoHTTPError 500 (MsgString "Internal Server Error") None).
  { destruct err as [|n|he]; [reflexivity|reflexivity|].
    exfalso. apply (Hplain he). reflexivity. }
  rewrite HTTPErrorHandler_effects, Hresolve, Hopen.
  destruct (String.eqb_spec (Method c) "HEAD") as [Hhead|_]; [contradiction|].
  cbn [echo.Code echo.Message Sprint].
  change ((500 <=? 500) && (500 <=? 511)) with true. cbv iota.
  split.
  - rewrite writes_app.
    destruct (strings.HasSuffix (Path c) "/compose"), (WriteResult c); reflexivity.
  - reflexivity.
Qed.

(** X12: the log of the error handler. A status outside 500..511, which
    includes the server errors 512..599, leaves no line when the response is
    committed or its write succeeds; a status inside the range is logged
    first, before anything else; a failed write of the response is logged
    last. *)
Theorem HTTPErrorHandler_log_lines (s : Server) (err : error) (c : Context) :
  let he := resolveHTTPError err in
  let es := effects (HTTPErrorHandler ErrorText s err c) in
  ((echo.Code he < 500 \/ 511 < echo.Code he) ->
     (Committed c = true \/ WriteResult c = None) -> logged es = [])
  /\ (500 <= echo.Code he <= 511 ->
        head es
        = Some (Logged echo.ERROR
                  ("Internal error " +:+ strconv.Itoa (echo.Code he) +:+ ": "
                   +:+ Sprint ErrorText (echo.Message he) +:+ ", " +:+ ErrorText err)))
  /\ (forall e, Committed c = false -> WriteResult c = Some e ->
        last es = Some (Logged echo.ERROR (ErrorText e))).
Proof.
  intros he es. subst es. rewrite HTTPErrorHandler_effects. fold he.
  split; [|split].
  - intros Hout Hquiet.
    assert (Hrange : (500 <=? echo.Code he) && (echo.Code he <=? 511) = false).
    { apply andb_false_iff. rewrite !Z.leb_gt. lia. }
    rewrite Hrange. cbn [app]. destruct Hquiet as [-> | ->]; [reflexivity|].
    destruct (Committed c); [reflexivity|].
    destruct (String.eqb (Method c) "HEAD"); reflexivity.
  - intros Hin.
    assert (Hrange : (500 <=? echo.Code he) && (echo.Code he <=? 511) = true).
    { apply andb_true_iff. rewrite !Z.leb_le. lia. }
    rewrite Hrange. reflexivity.
  - intros e Hopen Hwrite. rewrite Hopen, Hwrite.
    rewrite last_app. destruct (String.eqb (Method c) "HEAD"); reflexivity.
Qed.

End BinderAndResponderProperties.

Section BinderAndResponderPropertyWitnesses.

Import v1.

Lemma Bind_outcomes_witness :
  let ctx := fixtures.request (Some fixtures.entitledId) "POST"
               (Some ["application/json"]) "{}" in
  let r := Bind fixtures.errorText nat fixtures.decodeBraces 0%nat ctx in
  snd (value r) = None /\ fst (value r) = 1%nat /\ effects r = [BodyDecoded].
Proof.
  intros ctx r.
  destruct (Bind_outcomes fixtures.errorText nat fixtures.decodeBraces 0%nat ctx)
    as [Heffects [_ [Hok [Hvalue _]]]].
  assert (Hnone : snd (value r) = None).
  { apply Hok. split; reflexivity. }
  split; [exact Hnone|]. split; [apply (Hvalue Hnone) | exact Heffects].
Defined.

Lemma HTTPErrorHandler_counts_compose_errors_witness :
  let s := fixtures.serverWith (fixtures.allowListOf ∅) in
  let c := fixtures.request (Some fixtures.entitledId) "POST" None "" in
  composeErrors
    (effects (HTTPErrorHandler fixtures.errorText s
                (echo.NewHTTPError 511 (MsgString "proxy")) c)) = 1%nat
  /\ composeErrors
       (effects (HTTPErrorHandler fixtures.errorText s
                   (echo.NewHTTPError 512 (MsgString "proxy")) c)) <> 1%nat.
Proof.
  intros s c. split.
  - apply (HTTPErrorHandler_counts_compose_errors fixtures.errorText s
             (echo.NewHTTPError 511 (MsgString "proxy")) c).
    split; [vm_compute; split; discriminate|].
    exists "/api/image-builder/v1". reflexivity.
  - intros Hone.
    apply (HTTPErrorHandler_counts_compose_errors fixtures.errorText s
             (echo.NewHTTPError 512 (MsgString "proxy")) c) in Hone.
    destruct Hone as [[_ Hle] _]. vm_compute in Hle. apply Hle. reflexivity.
Defined.

Lemma HTTPErrorHandler_hides_plain_errors_witness :
  let s := fixtures.serverWith (fixtures.allowListOf ∅) in
  let c := fixtures.request (Some fixtures.entitledId) "GET" None "" in
  writes (effects (HTTPErrorHandler fixtures.errorText s (OtherError 4) c))
  = [WroteJSON 500 (mkHTTPErrorList [mkHTTPError "500" "Internal Server Error"])]
  /\ head (effects (HTTPErrorHandler fixtures.errorText s (OtherError 4) c))
     = Some (Logged echo.ERROR
               "Internal error 500: Internal Server Error, unexpected failure").
Proof.
  intros s c.
  apply (HTTPErrorHandler_hides_plain_errors fixtures.errorText s (OtherError 4) c).
  - intros he. discriminate.
  - reflexivity.
  - vm_compute. discriminate.
Defined.

Lemma HTTPErrorHandler_log_lines_witness :
  let s := fixtures.serverWith (fixtures.allowListOf ∅) in
  let c := fixtures.request (Some fixtures.entitledId) "GET" None "" in
  logged (effects (HTTPErrorHandler fixtures.errorText s
                     (echo.NewHTTPError 599 (MsgString "down")) c)) = []
  /\ last (effects (HTTPErrorHandler fixtures.errorText s
                      (echo.NewHTTPError 404 (MsgString "no route"))
                      (mkContext None "GET" ∅ "" "/x" false (Some (OtherError 2)))))
     = Some (Logged echo.ERROR "unexpected failure").
Proof.
  intros s c. split.
  - destruct (HTTPErrorHandler_log_lines fixtures.errorText s
                (echo.NewHTTPError 599 (MsgString "down")) c) as [Hquiet _].
    apply Hquiet; [right; vm_compute; reflexivity | right; reflexivity].
  - destruct (HTTPErrorHandler_log_lines fixtures.errorText s
                (echo.NewHTTPError 404 (MsgString "no route"))
                (mkContext None "GET" ∅ "" "/x" false (Some (OtherError 2))))
      as [_ [_ Hfail]].
    apply (Hfail (OtherError 2)); reflexivity.
Defined.

End BinderAndResponderPropertyWitnesses.

(* ===================================================================== *)
(** ** Further properties of the distro access gate                       *)
(* ===================================================================== *)

Section DistroGateProperties.

Import v1.

Variable ErrorText : error -> string.

Lemma isEntitled_effects_cases (s : Server) (ctx : Context) :
  effects (isEntitled s ctx) = []
  \/ effects (isEntitled s ctx)
     = [Logged echo.ERROR "RHEL entitlement not present in identity header"].
Proof.
  unfold isEntitled. destruct (getIdentityHeader ctx) as [idh|e]; [|left; reflexivity].
  destruct (identity.Entitlements idh !! "rhel"); [left|right]; reflexivity.
Qed.

Lemma getIdentityHeader_missing (ctx : Context) :
  IdentityOf ctx = None ->
  getIdentityHeader ctx
  = Err (echo.NewHTTPError 500 (MsgString "Identity Header missing in request handler")).
Proof. intros H. unfold getIdentityHeader. rewrite H. reflexivity. Qed.

(** X13: without an identity the caller counts as not entitled, silently, and
    [getDistro] looks the name up in the registry of non-entitled callers
    before it notices the missing identity: an unknown name is still an
    HTTP 400, a known name is the HTTP 500 of the missing identity header,
    also for a restricted distribution, and the allow-list is not asked. *)
Theorem getDistro_without_identity (s : Server) (ctx : Context) (distro : string) :
  IdentityOf ctx = None ->
  let registry := distribution.Available (allDistros s) false in
  isEntitled s ctx = (false, [])
  /\ (distribution.Get registry distro = Err DistributionNotFound ->
        value (getDistro ErrorText s ctx distro)
        = Err (echo.NewHTTPError 400 (MsgError DistributionNotFound)))
  /\ (forall d, distribution.Get registry distro = Ok d ->
        value (getDistro ErrorText s ctx distro)
        = Err (echo.NewHTTPError 500
                 (MsgString "Identity Header missing in request handler")))
  /\ effects (getDistro ErrorText s ctx distro) = [].
Proof.
  intros Hnone registry.
  assert (Hent : isEntitled s ctx = (false, [])).
  { unfold isEntitled. rewrite (getIdentityHeader_missing ctx Hnone). reflexivity. }
  assert (Htier : tierRegistry s ctx = registry).
  { unfold tierRegistry. rewrite Hent. reflexivity. }
  split; [exact Hent|].
  rewrite getDistro_unfold, value_bind, effects_bind, Htier, Hent.
  rewrite (getIdentityHeader_missing ctx Hnone). cbn [effects snd fst value app].
  split; [intros Hget; rewrite Hget; reflexivity|].
  split; [intros d Hget; rewrite Hget; reflexivity|].
  destruct (distribution.Get registry distro) as [d|e]; [reflexivity|].
  destruct (isDistributionNotFound e); reflexivity.
Qed.

(** X14: what a success of [getDistro] guarantees: the distribution is the
    one the registry of the caller's tier holds under the requested name,
    the identity header was present, and a restricted distribution was
    approved by the allow-list, without error, for the caller's organization
    and the distribution's name. *)
Theorem getDistro_success_is_authorized
    (s : Server) (ctx : Context) (distro : string) (d : distribution.DistributionFile) :
  value (getDistro ErrorText s ctx distro) = Ok d ->
  distribution.Get (tierRegistry s ctx) distro = Ok d
  /\ exists idHeader,
       IdentityOf ctx = Some idHeader
       /\ (distribution.IsRestricted d = true ->
             common.IsAllowed (allowList s)
               (identity.OrgID (identity.Internal (identity.Identity idHeader)))
               (distribution.Name d)
             = (true, None)).
Proof.
  rewrite getDistro_unfold, value_bind.
  destruct (distribution.Get (tierRegistry s ctx) distro) as [d'|e] eqn:Hget.
  - unfold getIdentityHeader. destruct (IdentityOf ctx) as [idHeader|] eqn:Hid;
      [|discriminate].
    destruct (distribution.IsRestricted d') eqn:Hrestr.
    + rewrite value_bind. unfold askAllowList. rewrite value_bind. cbn [value ret fst].
      destruct (common.IsAllowed (allowList s)
                  (identity.OrgID (identity.Internal (identity.Identity idHeader)))
                  (distribution.Name d')) as [allowOk [err|]] eqn:Hans;
        cbn [fst snd]; [discriminate|].
      destruct allowOk; cbn [negb]; [|discriminate].
      intros Hok. injection Hok as <-. split; [reflexivity|].
      exists idHeader. split; [reflexivity|]. intros _. exact Hans.
    + intros Hok. injection Hok as <-. split; [reflexivity|].
      exists idHeader. split; [reflexivity|]. rewrite Hrestr. discriminate.
  - destruct (isDistributionNotFound e); discriminate.
Qed.

(** X15: a registry error other than the sentinel is handed back as it is,
    not wrapped into an HTTP error, with or without an identity; only the
    sentinel becomes an HTTP 400. *)
Theorem getDistro_passes_registry_errors
    (s : Server) (ctx : Context) (distro : string) (e : error) :
  distribution.Get (tierRegistry s ctx) distro = Err e ->
  value (getDistro ErrorText s ctx distro)
  = (if isDistributionNotFound e
     then Err (echo.NewHTTPError 400 (MsgError e))
     else Err e)
  /\ (e <> DistributionNotFound -> value (getDistro ErrorText s ctx distro) = Err e).
Proof.
  intros Hget. rewrite getDistro_unfold, value_bind, Hget.
  split; [destruct (isDistributionNotFound e); reflexivity|].
  intros Hne. destruct e; [contradiction|reflexivity|reflexivity].
Qed.

(** X16: [getDistro] asks the allow-list at most once, and exactly when the
    identity is present and the name resolves to a restricted distribution;
    the question is the caller's organization id and the distribution's
    name. It never writes the response and never touches the counter. *)
Theorem getDistro_allow_list_calls (s : Server) (ctx : Context) (distro : string) :
  allowListCalls (effects (getDistro ErrorText s ctx distro))
  = match IdentityOf ctx, distribution.Get (tierRegistry s ctx) distro with
    | Some idHeader, Ok d =>
        if distribution.IsRestricted d
        then [AllowListAsked
                (identity.OrgID (identity.Internal (identity.Identity idHeader)))
                (distribution.Name d)]
        else []
    | _, _ => []
    end
  /\ writes (effects (getDistro ErrorText s ctx distro)) = []
  /\ composeErrors (effects (getDistro ErrorText s ctx distro)) = 0%nat.
Proof.
  rewrite getDistro_unfold, effects_bind.
  unfold allowListCalls, composeErrors, writes. rewrite !List.filter_app, length_app.
  assert (Hent : List.filter isAllowListAsked (effects (isEntitled s ctx)) = []
                 /\ List.filter isWrite (effects (isEntitled s ctx)) = []
                 /\ List.filter isComposeErrorsInc (effects (isEntitled s ctx)) = []).
  { destruct (isEntitled_effects_cases s ctx) as [-> | ->]; repeat split. }
  destruct Hent as [-> [-> ->]]. cbn [app length Nat.add].
  unfold getIdentityHeader.
  destruct (distribution.Get (tierRegistry s ctx) distro) as [d|e].
  - destruct (IdentityOf ctx) as [idHeader|]; [|repeat split].
    destruct (distribution.IsRestricted d); [|repeat split].
    unfold askAllowList.
    destruct (common.IsAllowed (allowList s)
                (identity.OrgID (identity.Internal (identity.Identity idHeader)))
                (distribution.Name d)) as [allowOk [err|]];
      [repeat split | destruct allowOk; repeat split].
  - destruct (IdentityOf ctx), (isDistributionNotFound e); repeat split.
Qed.

End DistroGateProperties.

Section GateToResponse.

Import v1.

Variable ErrorText : error -> string.

(** X17: a refusal by the allow-list, carried to the error handler of a
    request that is not HEAD and whose response write succeeds, is the one
    write of status 403 with the single entry titled "403" whose detail
    names the distribution; nothing is logged and the counter is not
    touched. *)
Theorem forbidden_distro_response
    (s : Server) (ctx : Context) (distro : string)
    (idHeader : identity.XRHID) (d : distribution.DistributionFile) :
  IdentityOf ctx = Some idHeader ->
  distribution.Get (tierRegistry s ctx) distro = Ok d ->
  distribution.IsRestricted d = true ->
  common.IsAllowed (allowList s)
    (identity.OrgID (identity.Internal (identity.Identity idHeader)))
    (distribution.Name d) = (false, None) ->
  Committed ctx = false ->
  Method ctx <> "HEAD" ->
  WriteResult ctx = None ->
  exists e,
    value (getDistro ErrorText s ctx distro) = Err e
    /\ effects (HTTPErrorHandler ErrorText s e ctx)
       = [WroteJSON 403
            (mkHTTPErrorList
               [mkHTTPError "403"
                  ("This account's organization is not authorized to build "
                   +:+ distribution.Name d +:+ " images")])].
Proof.
  intros Hid Hget Hrestr Hans Hopen Hmethod Hwrite.
  eexists. split.
  - rewrite getDistro_unfold, value_bind, Hget.
    rewrite (getIdentityHeader_resolved ctx idHeader Hid), Hrestr, value_bind.
    unfold askAllowList. rewrite value_bind. cbn [value ret fst].
    rewrite Hans. reflexivity.
  - rewrite HTTPErrorHandler_effects, Hopen, Hwrite.
    destruct (String.eqb_spec (Method ctx) "HEAD") as [Hhead|_]; [contradiction|].
    reflexivity.
Qed.

(** X18: an unknown distribution name, carried to the error handler of a
    request that is not HEAD on an uncommitted response, is written as
    status 400 with the single entry titled "400" whose detail is the text of
    the sentinel error; this holds with or without an identity. *)
Theorem unknown_distro_response (s : Server) (ctx : Context) (distro : string) :
  distribution.Get (tierRegistry s ctx) distro = Err DistributionNotFound ->
  Committed ctx = false ->
  Method ctx <> "HEAD" ->
  exists e,
    value (getDistro ErrorText s ctx distro) = Err e
    /\ writes (effects (HTTPErrorHandler ErrorText s e ctx))
       = [WroteJSON 400
            (mkHTTPErrorList [mkHTTPError "400" (ErrorText DistributionNotFound)])]
    /\ logged (effects (HTTPErrorHandler ErrorText s e ctx))
       = match WriteResult ctx with
         | Some w => [Logged echo.ERROR (ErrorText w)]
         | None => []
         end.
Proof.
  intros Hget Hopen Hmethod. eexists. split; [|split].
  - rewrite getDistro_unfold, value_bind, Hget. reflexivity.
  - rewrite HTTPErrorHandler_effects, Hopen.
    destruct (String.eqb_spec (Method ctx) "HEAD") as [Hhead|_]; [contradiction|].
    destruct (WriteResult ctx); reflexivity.
  - rewrite HTTPErrorHandler_effects, Hopen.
    destruct (String.eqb_spec (Method ctx) "HEAD") as [Hhead|_]; [contradiction|].
    destruct (WriteResult ctx); reflexivity.
Qed.

End GateToResponse.

Section DistroGatePropertyWitnesses.

Import v1.

Lemma getDistro_without_identity_witness :
  let s := fixtures.serverWith (fixtures.allowListOf {[ "org-1" := ["rhel-90-beta"] ]}) in
  let ctx := fixtures.request None "POST" None "" in
  value (getDistro fixtures.errorText s ctx "rhel-90-beta")
  = Err (echo.NewHTTPError 400 (MsgError DistributionNotFound))
  /\ value (getDistro fixtures.errorText s ctx "centos-8")
     = Err (echo.NewHTTPError 500
              (MsgString "Identity Header missing in request handler")).
Proof.
  intros s ctx. split.
  - destruct (getDistro_without_identity fixtures.errorText s ctx "rhel-90-beta" eq_refl)
      as [_ [Hunknown _]].
    apply Hunknown. reflexivity.
  - destruct (getDistro_without_identity fixtures.errorText s ctx "centos-8" eq_refl)
      as [_ [_ [Hknown _]]].
    apply (Hknown fixtures.centos8). reflexivity.
Defined.

Lemma getDistro_success_is_authorized_witness :
  let s := fixtures.serverWith (fixtures.allowListOf {[ "org-1" := ["rhel-90-beta"] ]}) in
  let ctx := fixtures.request (Some fixtures.entitledId) "POST" None "" in
  distribution.Get (tierRegistry s ctx) "rhel-90-beta" = Ok fixtures.rhel90beta
  /\ exists idHeader,
       IdentityOf ctx = Some idHeader
       /\ (distribution.IsRestricted fixtures.rhel90beta = true ->
             common.IsAllowed (allowList s)
               (identity.OrgID (identity.Internal (identity.Identity idHeader)))
               (distribution.Name fixtures.rhel90beta)
             = (true, None)).
Proof.
  intros s ctx.
  apply (getDistro_success_is_authorized fixtures.errorText s ctx "rhel-90-beta"
           fixtures.rhel90beta).
  reflexivity.
Defined.

Lemma getDistro_passes_registry_errors_witness :
  let s := mkServer (fixtures.allowListOf ∅)
             (distribution.mkAllDistroRegistry
                (fun _ => distribution.mkDistroRegistry (fun _ => Err (OtherError 9)))) in
  let ctx := fixtures.request (Some fixtures.entitledId) "POST" None "" in
  value (getDistro fixtures.errorText s ctx "centos-8") = Err (OtherError 9).
Proof.
  intros s ctx.
  destruct (getDistro_passes_registry_errors fixtures.errorText s ctx "centos-8"
              (OtherError 9) eq_refl) as [_ Hplain].
  apply Hplain. discriminate.
Defined.

Lemma forbidden_distro_response_witness :
  let s := fixtures.serverWith (fixtures.allowListOf ∅) in
  let ctx := fixtures.request (Some fixtures.entitledId) "POST" None "" in
  exists e,
    value (getDistro fixtures.errorText s ctx "rhel-90-beta") = Err e
    /\ effects (HTTPErrorHandler fixtures.errorText s e ctx)
       = [WroteJSON 403
            (mkHTTPErrorList
               [mkHTTPError "403"
                  "This account's organization is not authorized to build rhel-90-beta images"])].
Proof.
  intros s ctx.
  apply (forbidden_distro_response fixtures.errorText s ctx "rhel-90-beta"
           fixtures.entitledId fixtures.rhel90beta); try reflexivity.
  vm_compute. discriminate.
Defined.

Lemma unknown_distro_response_witness :
  let s := fixtures.serverWith (fixtures.allowListOf ∅) in
  let ctx := fixtures.request None "POST" None "" in
  exists e,
    value (getDistro fixtures.errorText s ctx "fedora-1") = Err e
    /\ writes (effects (HTTPErrorHandler fixtures.errorText s e ctx))
       = [WroteJSON 400 (mkHTTPErrorList [mkHTTPError "400" "distribution not found"])]
    /\ logged (effects (HTTPErrorHandler fixtures.errorText s e ctx)) = [].
Proof.
  intros s ctx.
  apply (unknown_distro_response fixtures.errorText s ctx "fedora-1");
    [reflexivity | reflexivity | vm_compute; discriminate].
Defined.

End DistroGatePropertyWitnesses.

(* ===================================================================== *)
(** ** Binding with Go's JSON decoder                                     *)
(* ===================================================================== *)

Section ScannerInvariants.








End ScannerInvariants.

Section JSONBinding.

Import v1.

Variable ErrorText : error -> string.
Variable Target : Type.
Variable unmarshal : string -> Target -> Target * option error.




End JSONBinding.

Section JSONBindingWitness.

Import v1.


(** The decoder on some bodies: complete values, values followed by other
    bytes, truncated values and no value at all. *)
Example readValue_samples :
  map json.readValue ["{}"; " [1, 2.5e3, {}] "; "123abc"; "truex"; "tru"; "{"; ""; "x{}"]
  = [Ok 2%nat; Ok 15%nat; Ok 3%nat; Ok 4%nat; Err io.ErrUnexpectedEOF;
     Err io.ErrUnexpectedEOF; Err io.EOF; Err json.SyntaxError].
Proof. reflexivity. Qed.

Example Valid_samples :
  map json.Valid ["{}"; " [1, 2.5e3, {}] "; "123abc"; "truex"; "tru"; "{"; ""; "[1,]"; "01"]
  = [true; true; false; false; false; false; false; false; false].
Proof. reflexivity. Qed.

End JSONBindingWitness.
